(** * geoloc_util: a shallow embedding and its specification

    The development follows [geoloc_util.py]: the helper classes, the input
    classifier [locations_to_searches], the search executor
    [perform_searches] and the reporter [main].

    Modelling choices.
    - Text is a [string] of the standard library, and the model is the one
      of the program on ASCII text: on characters below 128, [\d] is [0-9],
      the whitespace of [str.strip] is 0x09-0x0D, 0x1C-0x1F and 0x20, and
      [str.upper] maps [a-z] to [A-Z], as in Python.  Python's classes go
      further on the rest of Unicode (other decimal digits for [\d], other
      spaces for [str.strip], the full case mapping for [str.upper]); a
      statement that depends on the class of a character therefore assumes
      [ascii_text] of the locations it speaks of.
    - Python integers are [Z]; lengths are [nat] and are injected into [Z]
      where the program does arithmetic on them.
    - Exceptions are results [Raise e]; the network is a trace of the
      requests issued so far, threaded through a small state-and-error
      monad.
    - What the Python runtime and the libraries decide (the iteration order
      of a [set], what the web server answers, [json.loads], the text that
      formats a decoded JSON value) is the interface [Runtime]. *)

From Stdlib Require Import ZArith String Ascii List Bool Lia PeanoNat.
From Stdlib Require Import DecimalString DecimalPos PrimFloat Permutation.
Import ListNotations.
Open Scope list_scope.
Open Scope string_scope.

(** ** Python strings *)

Module Py.

Definition newline : string := String (ascii_of_nat 10) "".

(** Whitespace as [str.strip] sees it, for a character below 128; Python
    has further spaces above (U+0085, U+00A0, U+2000 and others), which a
    code from 128 on does not stand for here. *)
Definition isspace (c : ascii) : bool :=
  let n := nat_of_ascii c in
  (((9 <=? n) && (n <=? 13)) || ((28 <=? n) && (n <=? 32)))%nat.

(** [\d], for a character below 128; in a [str] pattern Python takes the
    decimal digits of the other scripts as well, which are outside this
    model. *)
Definition isdigit (c : ascii) : bool :=
  let n := nat_of_ascii c in ((48 <=? n) && (n <=? 57))%nat.

(** The upper case of a character below 128; the case mapping of Python on
    the rest of Unicode, which can give several characters for one, is
    outside this model. *)
Definition upper_char (c : ascii) : ascii :=
  let n := nat_of_ascii c in
  if ((97 <=? n) && (n <=? 122))%nat then ascii_of_nat (n - 32) else c.

(** [s.upper()] *)
Fixpoint upper (s : string) : string :=
  match s with
  | "" => ""
  | String c r => String (upper_char c) (upper r)
  end.

Fixpoint lstrip (s : string) : string :=
  match s with
  | "" => ""
  | String c r => if isspace c then lstrip r else s
  end.

Fixpoint rstrip (s : string) : string :=
  match s with
  | "" => ""
  | String c r =>
      match rstrip r with
      | "" => if isspace c then "" else String c ""
      | r' => String c r'
      end
  end.

(** [s.strip()]: leading, then trailing whitespace is dropped. *)
Definition strip (s : string) : string := rstrip (lstrip s).

(** [s.split(sep)] for a one-character separator: [k] separators give
    [k + 1] tokens, and the empty string gives one empty token. *)
Fixpoint split (sep : ascii) (s : string) : list string :=
  match s with
  | "" => [""]
  | String c r =>
      if Ascii.eqb c sep then "" :: split sep r
      else match split sep r with
           | [] => [String c ""]
           | t :: ts => String c t :: ts
           end
  end.

(** [sep.join(lines)] *)
Definition join (sep : string) (lines : list string) : string :=
  String.concat sep lines.

(** [re.match(r'\d{n}', s)]: the first [n] characters are digits. *)
Fixpoint match_digits (n : nat) (s : string) : bool :=
  match n with
  | O => true
  | S n' =>
      match s with
      | "" => false
      | String c r => isdigit c && match_digits n' r
      end
  end.

(** [x in l] for a list of strings. *)
Definition str_in (x : string) (l : list string) : bool :=
  existsb (String.eqb x) l.

(** [f'{n}'] for an integer. *)
Definition str_of_int (n : Z) : string :=
  NilEmpty.string_of_int (Z.to_int n).

(** [sub in s] for strings. *)
Fixpoint contains (sub s : string) : bool :=
  String.prefix sub s
  || match s with
     | "" => false
     | String _ r => contains sub r
     end.

(** [l.append(x)] and [l.extend(l')], on an immutable list. *)
Definition append {A : Type} (l : list A) (x : A) : list A := (l ++ [x])%list.
Definition extend {A : Type} (l l' : list A) : list A := (l ++ l')%list.

End Py.

(** ** Useful constants *)

Definition APPID : string := "f897a99d971b5eef57be6fafa0d83239".
Definition OPENWEATHERMAP_BASE_URL : string := "http://api.openweathermap.org/geo/1.0".
Definition STATES : list string :=
  ["AL"; "AK"; "AZ"; "AR"; "CA"; "CO"; "CT"; "DC"; "DE"; "FL";
   "GA"; "HI"; "ID"; "IL"; "IN"; "IA"; "KS"; "KY"; "LA"; "ME";
   "MD"; "MA"; "MI"; "MN"; "MS"; "MO"; "MT"; "NE"; "NV"; "NH";
   "NJ"; "NM"; "NY"; "NC"; "ND"; "OH"; "OK"; "OR"; "PA"; "RI";
   "SC"; "SD"; "TN"; "TX"; "UT"; "VT"; "VA"; "WA"; "WV"; "WI"; "WY"].
Definition US_COUNTRY_CODE : string := "US".

(** ** Helper classes *)

(** The enum-style class: two string constants. *)
Module SearchType.
Definition NAME_STATE : string := "Name,State".
Definition ZIP_CODE : string := "Zip code".
End SearchType.

(** A single search request. *)
Record Search : Type := mkSearch { search_type : string; value : string }.

(** [Search.__repr__] *)
Definition Search_repr (s : Search) : string :=
  search_type s ++ " " ++ value s.

(** ** Helper functions: the input classifier *)

(** One iteration of the loop of [locations_to_searches]; the two lists the
    loop appends to are passed in and returned. *)
Definition locations_to_searches_body
    (acc : list Search * list string) (location : string)
  : list Search * list string :=
  let '(searches, errors) := acc in
  if Py.match_digits 5 location then
    (Py.append searches (mkSearch SearchType.ZIP_CODE location), errors)
  else (* maybe it's a Name/State location? *)
    let tokens := Py.split "," location in
    if negb (List.length tokens =? 2)%nat then
      (searches,
       Py.append errors
         ("Location " ++ location ++ " does not contain one-and-only-one comma"))
    else
      let city_candidate := Py.strip (nth 0 tokens "") in
      let state_candidate := Py.strip (nth 1 tokens "") in
      let state_candidate := Py.upper state_candidate in
      let local_errors : list string := [] in
      let local_errors :=
        if String.eqb city_candidate "" then
          Py.append local_errors
            ("Location " ++ location ++ "'s city is an empty string")
        else local_errors in
      let local_errors :=
        if negb (Py.str_in state_candidate STATES) then
          Py.append local_errors
            ("Location " ++ location ++ "'s state " ++ state_candidate
               ++ " not a valid US state")
        else local_errors in
      match local_errors with
      | _ :: _ => (searches, Py.extend errors local_errors)
      | [] =>
          (Py.append searches
             (mkSearch SearchType.NAME_STATE
                (city_candidate ++ "," ++ state_candidate)),
           errors)
      end.

Definition locations_to_searches (locations : list string)
  : list Search * list string :=
  fold_left locations_to_searches_body locations ([], []).

(** ** Exceptions, decoded JSON and the web *)

Inductive exn : Type :=
| AttributeError | TypeError | KeyError | IndexError
| JSONDecodeError | RequestException.

Inductive result (A : Type) : Type :=
| Ok (a : A)
| Raise (e : exn).
Arguments Ok {A} a.
Arguments Raise {A} e.

(** What [json.loads] returns.  A [dict] keeps its entries in insertion
    order; its keys are strings and, in a decoded document, distinct. *)
#[warnings="-register-all"]
Inductive pyobj : Type :=
| PyNone
| PyBool (b : bool)
| PyInt (n : Z)
| PyFloat (x : PrimFloat.float)
| PyStr (s : string)
| PyList (items : list pyobj)
| PyDict (entries : list (string * pyobj)).

Definition has_key (key : string) (entries : list (string * pyobj)) : bool :=
  existsb (fun kv => String.eqb (fst kv) key) entries.

Definition remove_key (key : string) (entries : list (string * pyobj))
  : list (string * pyobj) :=
  filter (fun kv => negb (String.eqb (fst kv) key)) entries.

(** [len(o)] *)
Definition py_len (o : pyobj) : result nat :=
  match o with
  | PyStr s => Ok (String.length s)
  | PyList items => Ok (List.length items)
  | PyDict entries => Ok (List.length entries)
  | _ => Raise TypeError
  end.

(** [o[0]]; no key of a decoded JSON object is the integer 0. *)
Definition py_getitem0 (o : pyobj) : result pyobj :=
  match o with
  | PyList (x :: _) => Ok x
  | PyList [] => Raise IndexError
  | PyStr (String c _) => Ok (PyStr (String c ""))
  | PyStr "" => Raise IndexError
  | PyDict _ => Raise KeyError
  | _ => Raise TypeError
  end.

(** [key in o], for a string [key]. *)
Definition py_contains (key : string) (o : pyobj) : result bool :=
  match o with
  | PyDict entries => Ok (has_key key entries)
  | PyList items =>
      Ok (existsb (fun x => match x with
                            | PyStr s => String.eqb s key
                            | _ => false
                            end) items)
  | PyStr s => Ok (Py.contains key s)
  | _ => Raise TypeError
  end.

(** [del o[key]], for a string [key]; the object after the deletion. *)
Definition py_delitem (key : string) (o : pyobj) : result pyobj :=
  match o with
  | PyDict entries =>
      if has_key key entries then Ok (PyDict (remove_key key entries))
      else Raise KeyError
  | _ => Raise TypeError
  end.

(** A response object: what [requests.get] returns, or the fake, failed
    response, which has a status code and nothing else. *)
Inductive Response : Type :=
| WebResponse (status : Z) (body : string)
| FakeWebResponse.

Definition status_code (r : Response) : Z :=
  match r with
  | WebResponse status _ => status
  | FakeWebResponse => 999
  end.

Definition text (r : Response) : result string :=
  match r with
  | WebResponse _ body => Ok body
  | FakeWebResponse => Raise AttributeError
  end.

(** A request as [requests.get] receives it: the URL and the parameters. *)
Definition Request : Type := string * list (string * string).

(** The requests issued so far, oldest first. *)
Definition Trace : Type := list Request.

(** The Python runtime and the libraries the program calls. *)
Class Runtime : Type := {
  (** the order in which [set(l)] is iterated *)
  set_iter : list string -> list string;
  set_iter_NoDup : forall l, NoDup (set_iter l);
  set_iter_In : forall l x, In x (set_iter l) <-> In x l;
  (** [requests.get(url, params)], after the requests of the trace: the
      status code and the body, or an exception *)
  requests_get : Trace -> string -> list (string * string) -> result (Z * string);
  (** [json.loads] *)
  json_loads : string -> result pyobj;
  (** [f'{o}'] for a decoded JSON value *)
  py_format : pyobj -> string
}.

(** ** The state-and-error monad *)

Definition M (A : Type) : Type := Trace -> result A * Trace.

Definition ret {A : Type} (a : A) : M A := fun t => (Ok a, t).

Definition bind {A B : Type} (m : M A) (f : A -> M B) : M B :=
  fun t =>
    match m t with
    | (Ok a, t') => f a t'
    | (Raise e, t') => (Raise e, t')
    end.

Definition lift {A : Type} (r : result A) : M A := fun t => (r, t).

Notation "x <- m ;; k" := (bind m (fun x => k))
  (at level 61, m at next level, right associativity).
Notation "' pat <- m ;; k" := (bind m (fun x => match x with pat => k end))
  (at level 61, pat pattern, m at next level, right associativity).

(** [for x in l: s = body(s, x)] *)
Fixpoint for_each {A S : Type} (body : S -> A -> M S) (l : list A) (s : S) : M S :=
  match l with
  | [] => ret s
  | x :: rest => s' <- body s x ;; for_each body rest s'
  end.

(** [requests.get(url, params)]: the request joins the trace. *)
Definition http_get `{Runtime} (url : string) (params : list (string * string))
  : M Response :=
  fun t =>
    (match requests_get t url params with
     | Ok (status, body) => Ok (WebResponse status body)
     | Raise e => Raise e
     end,
     Py.append t (url, params)).

(** ** Helper functions: the search executor *)

Definition Successes : Type := list (Search * pyobj).
Definition Failures : Type := list (Search * string).

(** One iteration of the loop of [perform_searches]. *)
Definition perform_searches_body `{Runtime} (simulate_web_failure : bool)
    (acc : Successes * Failures) (search : Search) : M (Successes * Failures) :=
  let '(successful_searches, failed_searches) := acc in
  let '(path, query_param) :=
    if String.eqb (search_type search) SearchType.NAME_STATE
    then ("direct", "q") else ("zip", "zip") in
  let full_url := OPENWEATHERMAP_BASE_URL ++ "/" ++ path in
  let params :=
    [(query_param, value search ++ "," ++ US_COUNTRY_CODE);
     ("limit", "1");
     ("appid", APPID)] in
  response <- (if simulate_web_failure then ret FakeWebResponse
               else http_get full_url params) ;;
  if (status_code response =? 200)%Z then
    (* lines 117-119, reached from both kinds of search *)
    let keep (first_response : pyobj) : M (Successes * Failures) :=
      present <- lift (py_contains "local_names" first_response) ;;
      first_response <-
        (if present : bool then lift (py_delitem "local_names" first_response)
         else ret first_response) ;;
      ret (Py.append successful_searches (search, first_response),
           failed_searches) in
    response_text <- lift (text response) ;;
    response_object <- lift (json_loads response_text) ;;
    if String.eqb (search_type search) SearchType.NAME_STATE then
      n <- lift (py_len response_object) ;;
      if negb (n =? 0)%nat then
        first_response <- lift (py_getitem0 response_object) ;;
        keep first_response
      else
        ret (successful_searches,
             Py.append failed_searches
               (search, "Webserver response had no matching responses"))
    else (* SearchType.ZIP_CODE -> just use the whole response *)
      keep response_object
  else (* error in the API request *)
    ret (successful_searches,
         Py.append failed_searches
           (search, "Webserver returned error code: "
                      ++ Py.str_of_int (status_code response))).

Definition perform_searches `{Runtime} (searches : list Search)
    (simulate_web_failure : bool) : M (Successes * Failures) :=
  for_each (perform_searches_body simulate_web_failure) searches ([], []).

(** ** Main business logic *)

Definition success_line `{Runtime} (successful_search : Search * pyobj) : string :=
  "Search: " ++ Search_repr (fst successful_search) ++ Py.newline
    ++ "Result: " ++ py_format (snd successful_search).

Definition failure_line (failed_search : Search * string) : string :=
  "Search: " ++ Search_repr (fst failed_search) ++ Py.newline
    ++ "Error: " ++ snd failed_search.

(** [main], from line 154 on.  [parser.parse_args] either leaves [main]
    with [SystemExit] (no [--locations], no value for it, a value that looks
    like an option), before anything else has run, or returns the list of
    locations, which [nargs='+'] makes non-empty: [locations] is that list,
    [args.locations].  The exits of [argparse] are not part of this
    function. *)
Definition main `{Runtime} (locations : list string) (simulate_web_failure : bool)
  : M (string * Z) :=
  let output_lines : list string := [] in
  let locations_set := set_iter locations in
  let locations_delta :=
    (Z.of_nat (List.length locations) - Z.of_nat (List.length locations_set))%Z in
  let output_lines :=
    if negb (locations_delta =? 0)%Z then
      Py.append output_lines
        ("Removed " ++ Py.str_of_int locations_delta
           ++ " duplicative location(s) from search")
    else output_lines in
  (* Convert arguments to searches *)
  let '(searches, errors) := locations_to_searches locations_set in
  match errors with
  | _ :: _ =>
      let output_lines := fold_left Py.append errors output_lines in
      ret (Py.strip (Py.join Py.newline output_lines), 1%Z)
  | [] =>
      (* Perform searches *)
      '(successful_searches, failed_searches) <-
        perform_searches searches simulate_web_failure ;;
      let output_lines :=
        match successful_searches with
        | _ :: _ =>
            fold_left (fun lines s => Py.append lines (success_line s))
              successful_searches
              (Py.append output_lines
                 (Py.str_of_int (Z.of_nat (List.length successful_searches))
                    ++ " successful search(es):"))
        | [] => output_lines
        end in
      let output_lines :=
        match failed_searches with
        | _ :: _ =>
            fold_left (fun lines f => Py.append lines (failure_line f))
              failed_searches
              (Py.append output_lines
                 (Py.str_of_int (Z.of_nat (List.length failed_searches))
                    ++ " failed search(es):"))
        | [] => output_lines
        end in
      (* Join it into a human-readable string and return it *)
      ret (Py.strip (Py.join Py.newline output_lines),
           match failed_searches with _ :: _ => 2%Z | [] => 0%Z end)
  end.

(** ** A runtime to run the model on

    Sets are iterated in the order [nodup] leaves; the web, the decoder and
    the formatter are given. *)
#[export] Program Instance canned_runtime
    (get : Trace -> string -> list (string * string) -> result (Z * string))
    (loads : string -> result pyobj) (format : pyobj -> string) : Runtime :=
  {| set_iter := nodup string_dec;
     requests_get := get;
     json_loads := loads;
     py_format := format |}.
Next Obligation. intros; apply NoDup_nodup. Qed.
Next Obligation. intros; apply nodup_In. Qed.

(** No network: every request raises. *)
Definition offline : Runtime :=
  canned_runtime (fun _ _ _ => Raise RequestException)
                 (fun _ => Raise JSONDecodeError) (fun _ => "").

(** A web that knows the zip code 12345 and Cleveland, Ohio, finds no
    Springfield in Ohio, and answers 404 to anything else.  The bodies are
    named, and the decoder maps each name to the value the body stands
    for. *)
Definition sample_web (t : Trace) (url : string) (params : list (string * string))
  : result (Z * string) :=
  match params with
  | (_, query) :: _ =>
      if String.eqb query "12345,US" then Ok (200%Z, "zip 12345")
      else if String.eqb query "cleveland,OH,US" then Ok (200%Z, "direct cleveland")
      else if String.eqb query "springfield,OH,US" then Ok (200%Z, "direct nothing")
      else Ok (404%Z, "")
  | [] => Ok (400%Z, "")
  end.

Definition sample_loads (body : string) : result pyobj :=
  if String.eqb body "zip 12345" then
    Ok (PyDict [("zip", PyStr "12345"); ("name", PyStr "Schenectady");
                ("local_names", PyDict [("en", PyStr "Schenectady")]);
                ("country", PyStr "US")])
  else if String.eqb body "direct cleveland" then
    Ok (PyList [PyDict [("name", PyStr "Cleveland");
                        ("local_names", PyDict [("en", PyStr "Cleveland")]);
                        ("country", PyStr "US"); ("state", PyStr "Ohio")]])
  else if String.eqb body "direct nothing" then Ok (PyList [])
  else Raise JSONDecodeError.

Definition sample_format (o : pyobj) : string :=
  match o with
  | PyDict entries => "{" ++ String.concat ", " (map fst entries) ++ "}"
  | _ => "?"
  end.

Definition sample_runtime : Runtime :=
  canned_runtime sample_web sample_loads sample_format.

(** A web that answers for the zip code 12345 and is unreachable for
    anything else. *)
Definition flaky_web (t : Trace) (url : string) (params : list (string * string))
  : result (Z * string) :=
  match params with
  | (_, query) :: _ =>
      if String.eqb query "12345,US" then Ok (200%Z, "zip 12345")
      else Raise RequestException
  | [] => Raise RequestException
  end.

Definition flaky_runtime : Runtime :=
  canned_runtime flaky_web sample_loads sample_format.

Definition cleveland : Search := mkSearch SearchType.NAME_STATE "cleveland,OH".
Definition schenectady : Search := mkSearch SearchType.ZIP_CODE "12345".

(** ** Vocabulary of the statements *)

(** Text of characters below 128, on which the classes of [Py] are those
    of Python. *)
Definition ascii_text (s : string) : Prop :=
  forallb (fun c => (nat_of_ascii c <? 128)%nat) (list_ascii_of_string s) = true.

(** The digits of [\d], spelled out on the character codes. *)
Definition digit_char (c : ascii) : Prop :=
  (48 <= nat_of_ascii c <= 57)%nat.

(** Every character of the string is whitespace. *)
Definition blank (s : string) : Prop :=
  Forall (fun c => Py.isspace c = true) (list_ascii_of_string s).

(** The string starts with a character that is not whitespace. *)
Definition first_solid (s : string) : bool :=
  match s with
  | "" => false
  | String c _ => negb (Py.isspace c)
  end.

(** The string ends with a character that is not whitespace. *)
Fixpoint last_solid (s : string) : bool :=
  match s with
  | "" => false
  | String c "" => negb (Py.isspace c)
  | String _ r => last_solid r
  end.

(** How many times the character occurs in the string. *)
Fixpoint count_char (c : ascii) (s : string) : nat :=
  match s with
  | "" => 0
  | String a r => (if Ascii.eqb a c then 1 else 0) + count_char c r
  end.

(** The two messages of lines 70 and 73. *)
Definition city_error (location : string) : string :=
  "Location " ++ location ++ "'s city is an empty string".

Definition state_error (location state_candidate : string) : string :=
  "Location " ++ location ++ "'s state " ++ state_candidate
    ++ " not a valid US state".

(** [sub] occurs in [s]. *)
Definition occurs_in (sub s : string) : Prop :=
  exists before after, s = before ++ sub ++ after.

(** The request that [perform_searches] builds for a search: lines 91-100. *)
Definition request_for (search : Search) : Request :=
  (OPENWEATHERMAP_BASE_URL ++ "/"
     ++ (if String.eqb (search_type search) SearchType.NAME_STATE
         then "direct" else "zip"),
   [(if String.eqb (search_type search) SearchType.NAME_STATE
     then "q" else "zip",
     value search ++ "," ++ US_COUNTRY_CODE);
    ("limit", "1");
    ("appid", APPID)]).

(** The message of a failed request, line 122. *)
Definition error_code_message (status : Z) : string :=
  "Webserver returned error code: " ++ Py.str_of_int status.

(** The payloads recorded so far do not contain the key. *)
Definition stripped (acc : Successes * Failures) : Prop :=
  Forall (fun sp => py_contains "local_names" (snd sp) = Ok false) (fst acc).

(** The line that [main] starts the report with when [set] has dropped
    locations, lines 154-157. *)
Definition removed_lines `{Runtime} (locations : list string) : list string :=
  let locations_delta :=
    (Z.of_nat (List.length locations)
     - Z.of_nat (List.length (set_iter locations)))%Z in
  if (locations_delta =? 0)%Z then []
  else ["Removed " ++ Py.str_of_int locations_delta
          ++ " duplicative location(s) from search"].

(** The lines of the successes, lines 168-171, and of the failures,
    lines 172-175. *)
Definition success_block `{Runtime} (successful_searches : Successes)
  : list string :=
  match successful_searches with
  | [] => []
  | _ :: _ =>
      (Py.str_of_int (Z.of_nat (List.length successful_searches))
         ++ " successful search(es):")
        :: map success_line successful_searches
  end.

Definition failure_block (failed_searches : Failures) : list string :=
  match failed_searches with
  | [] => []
  | _ :: _ =>
      (Py.str_of_int (Z.of_nat (List.length failed_searches))
         ++ " failed search(es):")
        :: map failure_line failed_searches
  end.

(** The messages [perform_searches] gives to a failure. *)
Definition failure_message (message : string) : Prop :=
  message = "Webserver response had no matching responses"
  \/ exists status, message = error_code_message status.

(** * Properties *)

(** ** The classifier *)

Section Classifier.

(** What one location adds to the two lists, starting from empty ones. *)
Lemma locations_to_searches_body_acc searches errors location :
  locations_to_searches_body (searches, errors) location =
    ((searches ++ fst (locations_to_searches_body ([], []) location))%list,
     (errors ++ snd (locations_to_searches_body ([], []) location))%list).
Proof.
  unfold locations_to_searches_body, Py.append, Py.extend.
  destruct (Py.match_digits 5 location); cbn [fst snd app].
  { now rewrite app_nil_r. }
  destruct (negb (List.length (Py.split "," location) =? 2)%nat); cbn [fst snd app].
  { now rewrite app_nil_r. }
  destruct (String.eqb _ ""), (negb (Py.str_in _ STATES));
    cbn [fst snd app]; now rewrite ?app_nil_r.
Qed.

Lemma fold_body_acc locations searches errors :
  fold_left locations_to_searches_body locations (searches, errors) =
    ((searches
        ++ flat_map (fun l => fst (locations_to_searches [l])) locations)%list,
     (errors
        ++ flat_map (fun l => snd (locations_to_searches [l])) locations)%list).
Proof.
  revert searches errors.
  induction locations as [|l locations IH]; intros searches errors.
  - cbn. now rewrite !app_nil_r.
  - cbn [fold_left flat_map]. rewrite locations_to_searches_body_acc, IH.
    unfold locations_to_searches. cbn [fold_left].
    now rewrite !app_assoc.
Qed.

(** A location adds one search request and no error, or no search request
    and one or two errors. *)
Lemma locations_to_searches_single location :
  (exists s, locations_to_searches [location] = ([s], []))
  \/ (exists e es, locations_to_searches [location] = ([], e :: es)
                   /\ (List.length es <= 1)%nat).
Proof.
  unfold locations_to_searches, locations_to_searches_body, Py.append, Py.extend.
  cbn [fold_left].
  destruct (Py.match_digits 5 location).
  { left. eexists. reflexivity. }
  destruct (negb (List.length (Py.split "," location) =? 2)%nat).
  { right. do 2 eexists. split; [reflexivity | cbn; lia]. }
  destruct (String.eqb _ ""), (negb (Py.str_in _ STATES)); cbn [app].
  - right. do 2 eexists. split; [reflexivity | cbn; lia].
  - right. do 2 eexists. split; [reflexivity | cbn; lia].
  - right. do 2 eexists. split; [reflexivity | cbn; lia].
  - left. eexists. reflexivity.
Qed.

Lemma isdigit_spec c : Py.isdigit c = true <-> digit_char c.
Proof.
  unfold Py.isdigit, digit_char.
  rewrite andb_true_iff, !Nat.leb_le. tauto.
Qed.

Lemma match_digits_prefix digits rest :
  Forall digit_char (list_ascii_of_string digits) ->
  Py.match_digits (String.length digits) (digits ++ rest) = true.
Proof.
  induction digits as [|c digits IH]; cbn; intros Hall.
  - reflexivity.
  - inversion Hall as [|? ? Hc Hrest]; subst.
    apply andb_true_iff; split.
    + now apply isdigit_spec.
    + now apply IH.
Qed.

End Classifier.

(** ** Strings *)

Section Strings.

Lemma append_nil_r (s : string) : s ++ "" = s.
Proof. induction s; cbn; congruence. Qed.

Lemma append_assoc (a b c : string) : (a ++ b) ++ c = a ++ (b ++ c).
Proof. induction a; cbn; congruence. Qed.

Lemma lstrip_solid s : first_solid s = true -> Py.lstrip s = s.
Proof.
  destruct s as [|c r]; cbn; [discriminate|].
  now destruct (Py.isspace c).
Qed.


Lemma rstrip_solid s : last_solid s = true -> Py.rstrip s = s.
Proof.
  induction s as [|c r IH]; [discriminate|].
  destruct r as [|c' r'].
  - cbn. now destruct (Py.isspace c).
  - intros H. change (last_solid (String c' r') = true) in H.
    specialize (IH H).
    change (Py.rstrip (String c (String c' r')))
      with (match Py.rstrip (String c' r') with
            | "" => if Py.isspace c then "" else String c ""
            | r'' => String c r''
            end).
    now rewrite IH.
Qed.

Lemma strip_solid s :
  first_solid s = true -> last_solid s = true -> Py.strip s = s.
Proof.
  intros Hf Hl. unfold Py.strip. rewrite (lstrip_solid s Hf).
  now apply rstrip_solid.
Qed.

Lemma first_solid_app a b : first_solid a = true -> first_solid (a ++ b) = true.
Proof. destruct a; cbn; [discriminate | trivial]. Qed.

Lemma last_solid_app a b : last_solid b = true -> last_solid (a ++ b) = true.
Proof.
  intros Hb. induction a as [|c a IH]; [exact Hb|].
  cbn [append]. destruct (a ++ b) eqn:E.
  - cbn in IH. discriminate.
  - exact IH.
Qed.

(** [lstrip] drops a blank prefix and stops at a solid character. *)
Lemma lstrip_spec s :
  exists before, s = before ++ Py.lstrip s /\ blank before
                 /\ (Py.lstrip s = "" \/ first_solid (Py.lstrip s) = true).
Proof.
  induction s as [|c r (before & Heq & Hblank & Hend)].
  - exists "". cbn. repeat split; [constructor | now left].
  - cbn [Py.lstrip]. destruct (Py.isspace c) eqn:Hc.
    + exists (String c before). cbn [append]. rewrite <- Heq.
      repeat split; [|exact Hend].
      unfold blank. cbn. constructor; assumption.
    + exists "". cbn [append]. repeat split; [constructor|].
      right. cbn. now rewrite Hc.
Qed.

(** [rstrip] drops a blank suffix, stops at a solid character and keeps
    a solid first character. *)
Lemma rstrip_spec s :
  exists after, s = Py.rstrip s ++ after /\ blank after
                /\ (Py.rstrip s = "" \/ last_solid (Py.rstrip s) = true)
                /\ (first_solid s = true -> first_solid (Py.rstrip s) = true).
Proof.
  induction s as [|c r (after & Heq & Hblank & Hend & _)].
  - exists "". cbn. repeat split; [constructor | now left | trivial].
  - cbn [Py.rstrip]. destruct (Py.rstrip r) as [|c' r'] eqn:Er.
    + cbn [append] in Heq. subst after.
      destruct (Py.isspace c) eqn:Hc.
      * exists (String c r). cbn [append].
        repeat split; [| now left | cbn; rewrite Hc; discriminate].
        unfold blank. cbn. constructor; assumption.
      * exists r. cbn [append].
        repeat split; [assumption | right; cbn; now rewrite Hc | trivial].
    + exists after. cbn [append] in *. rewrite <- Heq.
      repeat split; [assumption | | trivial].
      right. destruct Hend as [Hend|Hend]; [discriminate | exact Hend].
Qed.

(** [strip] drops a blank prefix and a blank suffix, and what is left is
    empty or solid at both ends. *)
Lemma strip_spec s :
  exists before after,
    s = before ++ Py.strip s ++ after /\ blank before /\ blank after
    /\ (Py.strip s = ""
        \/ (first_solid (Py.strip s) = true /\ last_solid (Py.strip s) = true)).
Proof.
  destruct (lstrip_spec s) as (before & Hl & Hb & Hfirst).
  destruct (rstrip_spec (Py.lstrip s)) as (after & Hr & Ha & Hlast & Hkeep).
  exists before, after. unfold Py.strip.
  repeat split; try assumption.
  - now rewrite <- Hr.
  - destruct Hlast as [H|H]; [now left|]. right. split; [|exact H].
    destruct Hfirst as [H'|H']; [|now apply Hkeep].
    rewrite H' in H. discriminate.
Qed.

End Strings.

(** ** ASCII text *)

Section AsciiText.

Lemma ascii_text_app a b : ascii_text (a ++ b) <-> ascii_text a /\ ascii_text b.
Proof.
  unfold ascii_text. induction a as [|c a IH]; cbn [append list_ascii_of_string forallb].
  - split; [now split | now intros [_ H]].
  - rewrite !andb_true_iff, IH. tauto.
Qed.

Lemma ascii_text_strip s : ascii_text s -> ascii_text (Py.strip s).
Proof.
  intros Hs. destruct (strip_spec s) as (before & after & Heq & _).
  rewrite Heq in Hs. apply ascii_text_app in Hs as [_ Hs].
  now apply ascii_text_app in Hs as [Hs _].
Qed.

Lemma upper_char_ascii c :
  (nat_of_ascii c <? 128)%nat = true ->
  (nat_of_ascii (Py.upper_char c) <? 128)%nat = true.
Proof.
  destruct c as [[] [] [] [] [] [] [] []]; intros H;
    first [reflexivity | discriminate H].
Qed.

Lemma ascii_text_upper s : ascii_text s -> ascii_text (Py.upper s).
Proof.
  unfold ascii_text. induction s as [|c s IH]; [trivial|].
  cbn [Py.upper list_ascii_of_string forallb]. rewrite !andb_true_iff.
  intros [Hc Hs]. split; [now apply upper_char_ascii | now apply IH].
Qed.

Lemma ascii_text_split sep s :
  ascii_text s -> Forall ascii_text (Py.split sep s).
Proof.
  induction s as [|c s IH]; intros Hs; [now repeat constructor|].
  assert (Hc : ascii_text (String c "") /\ ascii_text s).
  { now apply (ascii_text_app (String c "") s). }
  destruct Hc as [Hc Hrest]. specialize (IH Hrest).
  cbn [Py.split]. destruct (Ascii.eqb c sep).
  - constructor; [reflexivity | exact IH].
  - destruct (Py.split sep s) as [|tok toks]; [now repeat constructor|].
    inversion IH as [|? ? Htok Htoks]; subst.
    constructor; [|exact Htoks].
    now apply (ascii_text_app (String c "") tok).
Qed.

(** The value of a name/state search is ASCII text when the location is. *)
Lemma name_state_value_ascii location city state :
  ascii_text location ->
  Py.split "," location = [city; state] ->
  ascii_text (Py.strip city ++ "," ++ Py.upper (Py.strip state)).
Proof.
  intros Hloc Hsplit.
  pose proof (ascii_text_split "," location Hloc) as Htoks.
  rewrite Hsplit in Htoks.
  inversion Htoks as [|? ? Hcity Hrest]; subst.
  inversion Hrest as [|? ? Hstate _]; subst.
  apply ascii_text_app. split; [now apply ascii_text_strip|].
  apply ascii_text_app. split; [reflexivity|].
  now apply ascii_text_upper, ascii_text_strip.
Qed.

End AsciiText.

(** ** Claims about the classifier *)

Section ClassifierClaims.

Lemma locations_to_searches_app before after :
  locations_to_searches (before ++ after) =
    ((fst (locations_to_searches before)
        ++ fst (locations_to_searches after))%list,
     (snd (locations_to_searches before)
        ++ snd (locations_to_searches after))%list).
Proof.
  unfold locations_to_searches.
  rewrite !fold_body_acc, !flat_map_app. reflexivity.
Qed.

Lemma str_in_In x l : Py.str_in x l = true -> In x l.
Proof.
  unfold Py.str_in. rewrite existsb_exists.
  intros (y & Hy & Heq). apply String.eqb_eq in Heq. now subst.
Qed.

(** C1: for every collection of raw location strings, the two lists that
    [locations_to_searches] returns are the concatenation, in input order,
    of what each input contributes on its own, and each input contributes
    to exactly one of them: one search request and no error, or no search
    request and at least one error. *)
Theorem locations_to_searches_partition (locations : list string) :
  locations_to_searches locations =
    (flat_map (fun l => fst (locations_to_searches [l])) locations,
     flat_map (fun l => snd (locations_to_searches [l])) locations)
  /\ forall location,
       (exists s, locations_to_searches [location] = ([s], []))
       \/ (exists e es, locations_to_searches [location] = ([], e :: es)).
Proof.
  split.
  - unfold locations_to_searches at 1. now rewrite fold_body_acc.
  - intros location.
    destruct (locations_to_searches_single location) as [H|(e & es & H & _)].
    + now left.
    + right. now exists e, es.
Qed.

(** C4: a location that begins with five digits is classified as a
    zip-code search whose value is the whole string, whatever follows the
    digits and wherever the location stands in the input; it adds no
    validation error.  ["12345abc"] is such a location. *)
Theorem leading_digits_zip_search :
  (forall location digits rest before after,
      location = digits ++ rest ->
      String.length digits = 5%nat ->
      Forall digit_char (list_ascii_of_string digits) ->
      locations_to_searches (before ++ location :: after)%list =
        ((fst (locations_to_searches before)
            ++ mkSearch SearchType.ZIP_CODE location
            :: fst (locations_to_searches after))%list,
         (snd (locations_to_searches before)
            ++ snd (locations_to_searches after))%list))
  /\ locations_to_searches ["12345abc"]
     = ([mkSearch SearchType.ZIP_CODE "12345abc"], []).
Proof.
  split; [|reflexivity].
  intros location digits rest before after -> Hlen Hdigits.
  set (location := digits ++ rest).
  change (before ++ location :: after)%list
    with (before ++ [location] ++ after)%list.
  rewrite !locations_to_searches_app. cbn [fst snd].
  assert (Hone : locations_to_searches [location]
                 = ([mkSearch SearchType.ZIP_CODE location], [])).
  { unfold locations_to_searches, locations_to_searches_body. cbn [fold_left].
    unfold location. rewrite <- Hlen, match_digits_prefix by assumption.
    reflexivity. }
  rewrite Hone. reflexivity.
Qed.

Lemma leading_digits_zip_search_witness :
  locations_to_searches (["cleveland,OH"] ++ "90210-1234" :: ["x"])%list
  = ([mkSearch SearchType.NAME_STATE "cleveland,OH";
      mkSearch SearchType.ZIP_CODE "90210-1234"],
     ["Location x does not contain one-and-only-one comma"]).
Proof.
  apply (proj1 leading_digits_zip_search
           "90210-1234" "90210" "-1234" ["cleveland,OH"] ["x"]).
  - reflexivity.
  - reflexivity.
  - repeat constructor; apply isdigit_spec; reflexivity.
Defined.

(** C8: when a location of ASCII text is classified as a name/state
    search, it has exactly one comma, and the value of the search is the
    city token without its surrounding whitespace, a comma, and the state
    token stripped and uppercased; the city part is not empty and the state
    part is one of [STATES]; the value is ASCII text again.  For
    ["cleveland, oh"] the search renders as ["Name,State cleveland,OH"]. *)
Theorem name_state_value_normalized :
  (forall location s,
      ascii_text location ->
      locations_to_searches [location] = ([s], []) ->
      search_type s = SearchType.NAME_STATE ->
      exists city state,
        Py.split "," location = [city; state]
        /\ value s = Py.strip city ++ "," ++ Py.upper (Py.strip state)
        /\ (exists before after,
               city = before ++ Py.strip city ++ after
               /\ blank before /\ blank after
               /\ first_solid (Py.strip city) = true
               /\ last_solid (Py.strip city) = true)
        /\ In (Py.upper (Py.strip state)) STATES
        /\ ascii_text (value s))
  /\ map Search_repr (fst (locations_to_searches ["cleveland, oh"]))
     = ["Name,State cleveland,OH"].
Proof.
  split; [|reflexivity].
  intros location s Hascii Hrun Htype.
  unfold locations_to_searches, locations_to_searches_body in Hrun.
  cbn [fold_left] in Hrun. unfold Py.append, Py.extend in Hrun.
  destruct (Py.match_digits 5 location).
  { cbn in Hrun. injection Hrun as <-. discriminate Htype. }
  destruct (Py.split "," location) as [|city [|state [|more tokens]]] eqn:Etok;
    cbn [List.length Nat.eqb negb app] in Hrun; try discriminate Hrun.
  cbn [nth] in Hrun.
  destruct (String.eqb (Py.strip city) "") eqn:Ecity;
    destruct (Py.str_in (Py.upper (Py.strip state)) STATES) eqn:Estate;
    cbn [negb app] in Hrun; try discriminate Hrun.
  injection Hrun as <-. exists city, state.
  split; [reflexivity|]. split; [reflexivity|]. split.
  - destruct (strip_spec city) as (b & a & Heq & Hb & Ha & Hends).
    exists b, a. repeat split; try assumption.
    + destruct Hends as [H|[H _]]; [|exact H].
      rewrite H in Ecity. discriminate.
    + destruct Hends as [H|[_ H]]; [|exact H].
      rewrite H in Ecity. discriminate.
  - split; [now apply str_in_In|]. cbn [value].
    now apply (name_state_value_ascii location).
Qed.

Lemma name_state_value_normalized_witness :
  exists city state,
    Py.split "," "  New York , ny" = [city; state]
    /\ "New York,NY" = Py.strip city ++ "," ++ Py.upper (Py.strip state)
    /\ (exists before after,
           city = before ++ Py.strip city ++ after
           /\ blank before /\ blank after
           /\ first_solid (Py.strip city) = true
           /\ last_solid (Py.strip city) = true)
    /\ In (Py.upper (Py.strip state)) STATES
    /\ ascii_text "New York,NY".
Proof.
  apply (proj1 name_state_value_normalized "  New York , ny"
           (mkSearch SearchType.NAME_STATE "New York,NY")); reflexivity.
Defined.

End ClassifierClaims.

(** ** The search executor *)

Section Executor.

Context `{RT : Runtime}.

Lemma has_key_remove_key key entries :
  has_key key (remove_key key entries) = false.
Proof.
  unfold has_key, remove_key.
  induction entries as [|[k v] entries IH]; [reflexivity|].
  cbn [filter fst]. destruct (String.eqb k key) eqn:E; cbn [negb]; [exact IH|].
  cbn [existsb fst]. now rewrite E, IH.
Qed.

Lemma remove_key_absent key entries :
  has_key key entries = false -> remove_key key entries = entries.
Proof.
  unfold has_key, remove_key.
  induction entries as [|[k v] entries IH]; [reflexivity|].
  cbn [existsb filter fst]. intros H. apply orb_false_iff in H as [Hk Hrest].
  rewrite Hk. cbn [negb]. now rewrite IH.
Qed.


(** The body, with the request factored out and the monad unfolded. *)
Lemma perform_searches_body_real succ fail search t :
  perform_searches_body false (succ, fail) search t =
    match requests_get t (fst (request_for search)) (snd (request_for search)) with
    | Raise e => (Raise e, (t ++ [request_for search])%list)
    | Ok (status, body) =>
        let t' := (t ++ [request_for search])%list in
        if (status =? 200)%Z then
          match json_loads body with
          | Raise e => (Raise e, t')
          | Ok response_object =>
              let keep first_response :=
                match py_contains "local_names" first_response with
                | Raise e => (Raise e, t')
                | Ok true =>
                    match py_delitem "local_names" first_response with
                    | Raise e => (Raise e, t')
                    | Ok stripped => (Ok ((succ ++ [(search, stripped)])%list, fail), t')
                    end
                | Ok false =>
                    (Ok ((succ ++ [(search, first_response)])%list, fail), t')
                end in
              if String.eqb (search_type search) SearchType.NAME_STATE then
                match py_len response_object with
                | Raise e => (Raise e, t')
                | Ok n =>
                    if negb (n =? 0)%nat then
                      match py_getitem0 response_object with
                      | Raise e => (Raise e, t')
                      | Ok first_response => keep first_response
                      end
                    else
                      (Ok (succ,
                           (fail ++ [(search,
                                      "Webserver response had no matching responses")])%list),
                       t')
                end
              else keep response_object
          end
        else
          (Ok (succ, (fail ++ [(search, error_code_message status)])%list), t')
    end.
Proof.
  unfold perform_searches_body, request_for, http_get, bind, lift, ret,
    Py.append, error_code_message.
  destruct (String.eqb (search_type search) SearchType.NAME_STATE) eqn:Etype;
    cbn [fst snd];
    (destruct (requests_get t _ _) as [[status body]|e]; [|reflexivity]);
    cbn [status_code text];
    (destruct (status =? 200)%Z; [|reflexivity]);
    (destruct (json_loads body) as [response_object|e]; [|reflexivity]).
  - destruct (py_len response_object) as [n|e]; [|reflexivity].
    destruct (negb (n =? 0)%nat); [|reflexivity].
    destruct (py_getitem0 response_object) as [first_response|e]; [|reflexivity].
    destruct (py_contains "local_names" first_response) as [[|]|e]; reflexivity.
  - destruct (py_contains "local_names" response_object) as [[|]|e]; reflexivity.
Qed.

(** With the simulated failure, the body records one failure, raises
    nothing and leaves the trace alone. *)
Lemma perform_searches_body_simulated succ fail search t :
  perform_searches_body true (succ, fail) search t =
    (Ok (succ, (fail ++ [(search, error_code_message 999)])%list), t).
Proof.
  unfold perform_searches_body.
  destruct (String.eqb (search_type search) SearchType.NAME_STATE); reflexivity.
Qed.

Lemma for_each_simulated searches succ fail t :
  for_each (perform_searches_body true) searches (succ, fail) t =
    (Ok (succ,
         (fail ++ map (fun s => (s, error_code_message 999)) searches)%list), t).
Proof.
  revert fail. induction searches as [|s searches IH]; intros fail.
  - cbn. now rewrite app_nil_r.
  - cbn [for_each map]. unfold bind at 1.
    rewrite perform_searches_body_simulated, IH, <- app_assoc. reflexivity.
Qed.

End Executor.

(** ** Claims about the search executor *)

Section ExecutorClaims.

Lemma for_each_invariant {A S : Type} (body : S -> A -> M S) (I : S -> Prop) :
  (forall s x t s' t', body s x t = (Ok s', t') -> I s -> I s') ->
  forall l s t s' t', for_each body l s t = (Ok s', t') -> I s -> I s'.
Proof.
  intros Hbody l. induction l as [|x l IH]; intros s t s' t' Hrun Hs.
  - cbn in Hrun. unfold ret in Hrun. injection Hrun as <- _. exact Hs.
  - cbn [for_each] in Hrun. unfold bind in Hrun.
    destruct (body s x t) as [[s1|e] t1] eqn:Estep; [|discriminate].
    eapply IH; [exact Hrun|]. eapply Hbody; eassumption.
Qed.

Context `{RT : Runtime}.

Lemma py_delitem_stripped o o' :
  py_delitem "local_names" o = Ok o' ->
  py_contains "local_names" o' = Ok false.
Proof.
  destruct o; cbn; try discriminate.
  destruct (has_key "local_names" entries); [|discriminate].
  intros [= <-]. cbn. now rewrite has_key_remove_key.
Qed.

Lemma perform_searches_body_stripped sim acc search t acc' t' :
  perform_searches_body sim acc search t = (Ok acc', t') ->
  stripped acc -> stripped acc'.
Proof.
  destruct acc as [succ fail]. unfold stripped. cbn [fst].
  destruct sim.
  - rewrite perform_searches_body_simulated. intros [= <- _]. trivial.
  - rewrite perform_searches_body_real.
    destruct (requests_get t _ _) as [[status body]|e]; [|discriminate].
    cbv zeta.
    destruct (status =? 200)%Z; [|intros [= <- _]; trivial].
    destruct (json_loads body) as [response_object|e]; [|discriminate].
    assert (Hkeep : forall first_response,
               match py_contains "local_names" first_response with
               | Ok true =>
                   match py_delitem "local_names" first_response with
                   | Ok o => (Ok ((succ ++ [(search, o)])%list, fail),
                              (t ++ [request_for search])%list)
                   | Raise e => (Raise e, (t ++ [request_for search])%list)
                   end
               | Ok false =>
                   (Ok ((succ ++ [(search, first_response)])%list, fail),
                    (t ++ [request_for search])%list)
               | Raise e => (Raise e, (t ++ [request_for search])%list)
               end = (Ok acc', t') ->
               Forall (fun sp => py_contains "local_names" (snd sp) = Ok false) succ ->
               Forall (fun sp => py_contains "local_names" (snd sp) = Ok false)
                      (fst acc')).
    { intros first_response.
      destruct (py_contains "local_names" first_response) as [[|]|e] eqn:Ein;
        [| |discriminate].
      - destruct (py_delitem "local_names" first_response) as [o|e] eqn:Edel;
          [|discriminate].
        intros [= <- _] Hsucc. cbn [fst].
        apply Forall_app; split; [exact Hsucc|].
        constructor; [|constructor]. cbn [snd].
        eapply py_delitem_stripped; eassumption.
      - intros [= <- _] Hsucc. cbn [fst].
        apply Forall_app; split; [exact Hsucc|].
        constructor; [|constructor]. exact Ein. }
    destruct (String.eqb (search_type search) SearchType.NAME_STATE).
    + destruct (py_len response_object) as [n|e]; [|discriminate].
      destruct (negb (n =? 0)%nat); [|intros [= <- _]; trivial].
      destruct (py_getitem0 response_object) as [first_response|e]; [|discriminate].
      apply Hkeep.
    + apply Hkeep.
Qed.

(** C6: whatever the search request, a response whose status is not 200
    adds a failure whose message ends with the status code, for the real
    response and for the fake one; a name/state search answered 200 with
    an empty list adds the failure "no matching responses", and answered
    200 with a list that starts with a record it adds that record as the
    payload of a success, the record being the first element itself when
    it has no ["local_names"] entry and the first element after
    [del first_response['local_names']] otherwise. *)
Theorem response_classification :
  (forall search succ fail t status body,
      requests_get t (fst (request_for search)) (snd (request_for search))
      = Ok (status, body) ->
      status <> 200%Z ->
      perform_searches_body false (succ, fail) search t
      = (Ok (succ, (fail ++ [(search, error_code_message status)])%list),
         (t ++ [request_for search])%list)
      /\ occurs_in (Py.str_of_int status) (error_code_message status))
  /\ (forall search succ fail t,
         perform_searches_body true (succ, fail) search t
         = (Ok (succ, (fail ++ [(search, error_code_message 999)])%list), t))
  /\ (forall search succ fail t body,
         search_type search = SearchType.NAME_STATE ->
         requests_get t (fst (request_for search)) (snd (request_for search))
         = Ok (200%Z, body) ->
         json_loads body = Ok (PyList []) ->
         perform_searches_body false (succ, fail) search t
         = (Ok (succ,
                (fail ++ [(search,
                           "Webserver response had no matching responses")])%list),
            (t ++ [request_for search])%list))
  /\ (forall search succ fail t body record rest,
         search_type search = SearchType.NAME_STATE ->
         requests_get t (fst (request_for search)) (snd (request_for search))
         = Ok (200%Z, body) ->
         json_loads body = Ok (PyList (PyDict record :: rest)) ->
         perform_searches_body false (succ, fail) search t
         = (Ok ((succ ++ [(search, PyDict (remove_key "local_names" record))])%list,
                fail),
            (t ++ [request_for search])%list)
         /\ (has_key "local_names" record = false ->
             remove_key "local_names" record = record)).
Proof.
  split; [|split; [|split]].
  - intros search succ fail t status body Hget Hstatus.
    split.
    + rewrite perform_searches_body_real, Hget. cbv zeta.
      apply Z.eqb_neq in Hstatus. now rewrite Hstatus.
    + exists "Webserver returned error code: ", "".
      unfold error_code_message. now rewrite append_nil_r.
  - intros. apply perform_searches_body_simulated.
  - intros search succ fail t body Htype Hget Hjson.
    rewrite perform_searches_body_real, Hget. cbv zeta.
    rewrite Hjson, Htype. reflexivity.
  - intros search succ fail t body record rest Htype Hget Hjson.
    split; [|apply remove_key_absent].
    rewrite perform_searches_body_real, Hget. cbv zeta.
    rewrite Hjson, Htype. cbn.
    destruct (has_key "local_names" record) eqn:E; [reflexivity|].
    now rewrite remove_key_absent.
Qed.

(** C7: every success that [perform_searches] returns, for a name/state
    search or a zip-code search, has a payload in which ["local_names"] is
    not found; when the payload is a record, it has no such key. *)
Theorem successes_carry_no_local_names searches sim t succ fail t' :
  perform_searches searches sim t = (Ok (succ, fail), t') ->
  Forall (fun sp =>
            py_contains "local_names" (snd sp) = Ok false
            /\ forall entries, snd sp = PyDict entries ->
                               has_key "local_names" entries = false)
         succ.
Proof.
  intros Hrun.
  assert (H : stripped (succ, fail)).
  { eapply (for_each_invariant (perform_searches_body sim) stripped).
    - intros s x t0 s' t0'. apply perform_searches_body_stripped.
    - exact Hrun.
    - constructor. }
  unfold stripped in H. cbn [fst] in H.
  eapply Forall_impl; [|exact H].
  intros [search payload] Hin. cbn [snd] in *. split; [exact Hin|].
  intros entries ->. cbn in Hin. now injection Hin.
Qed.

(** C10: the status of the fake response is 999, not 200, and its text
    could not be read; with the simulated failure [perform_searches]
    returns for every list of searches, raises nothing, issues no request,
    and gives no success and one failure per search, in order. *)
Theorem simulated_failure_total :
  (status_code FakeWebResponse =? 200)%Z = false
  /\ text FakeWebResponse = Raise AttributeError
  /\ forall searches t,
       exists failures,
         perform_searches searches true t = (Ok ([], failures), t)
         /\ List.length failures = List.length searches
         /\ map fst failures = searches.
Proof.
  split; [reflexivity|]. split; [reflexivity|].
  intros searches t.
  exists (map (fun s => (s, error_code_message 999)) searches).
  split; [|split].
  - unfold perform_searches. now rewrite for_each_simulated.
  - apply length_map.
  - rewrite map_map. cbn [fst]. apply map_id.
Qed.

End ExecutorClaims.

(** ** The reporter *)

Section Reporter.

(** *** Decimal numerals *)

Lemma string_of_uint_solid d :
  d <> Decimal.Nil ->
  first_solid (NilEmpty.string_of_uint d) = true
  /\ last_solid (NilEmpty.string_of_uint d) = true.
Proof.
  induction d as [|d IH|d IH|d IH|d IH|d IH|d IH|d IH|d IH|d IH|d IH];
    intros Hd; [congruence| ..];
    (split; [reflexivity|]);
    (destruct d;
     [ reflexivity
     | cbn [NilEmpty.string_of_uint] in *;
       apply IH; discriminate .. ]).
Qed.

Lemma str_of_int_solid n :
  first_solid (Py.str_of_int n) = true /\ last_solid (Py.str_of_int n) = true.
Proof.
  unfold Py.str_of_int. destruct n as [|p|p]; cbn [Z.to_int NilEmpty.string_of_int].
  - split; reflexivity.
  - apply string_of_uint_solid, Unsigned.to_uint_nonnil.
  - destruct (string_of_uint_solid (Pos.to_uint p)
                (Unsigned.to_uint_nonnil p)) as [Hf Hl].
    split; [reflexivity|].
    change (String "-" (NilEmpty.string_of_uint (Pos.to_uint p)))
      with ("-" ++ NilEmpty.string_of_uint (Pos.to_uint p)).
    now apply last_solid_app.
Qed.

(** *** Joined lines *)

Lemma join_cons sep x y rest :
  Py.join sep (x :: y :: rest) = x ++ sep ++ Py.join sep (y :: rest).
Proof. reflexivity. Qed.

Lemma join_first_solid sep x rest :
  first_solid x = true -> first_solid (Py.join sep (x :: rest)) = true.
Proof.
  destruct rest as [|y rest]; [trivial|].
  rewrite join_cons. apply first_solid_app.
Qed.

Lemma join_last_solid sep init z :
  last_solid z = true -> last_solid (Py.join sep (init ++ [z])%list) = true.
Proof.
  intros Hz. induction init as [|x init IH]; [exact Hz|].
  destruct init as [|y init]; cbn [app] in *.
  - rewrite join_cons. now do 2 apply last_solid_app.
  - rewrite join_cons. now do 2 apply last_solid_app.
Qed.

Lemma join_occurs sep line lines :
  In line lines -> occurs_in line (Py.join sep lines).
Proof.
  induction lines as [|x lines IH]; [contradiction|].
  intros [->|Hin].
  - destruct lines as [|y lines].
    + exists "", "". cbn. now rewrite append_nil_r.
    + exists "", (sep ++ Py.join sep (y :: lines)). now rewrite join_cons.
  - destruct lines as [|y lines]; [contradiction|].
    destruct (IH Hin) as (before & after & Heq).
    exists (x ++ sep ++ before), after.
    rewrite join_cons, Heq, !append_assoc. reflexivity.
Qed.

(** The report is the joined lines when the first line starts solid and
    the last one ends solid. *)
Lemma strip_join x rest init z :
  (x :: rest = init ++ [z])%list ->
  first_solid x = true -> last_solid z = true ->
  Py.strip (Py.join Py.newline (x :: rest)) = Py.join Py.newline (x :: rest).
Proof.
  intros Heq Hx Hz. apply strip_solid.
  - now apply join_first_solid.
  - rewrite Heq. now apply join_last_solid.
Qed.

(** *** The loops that append lines *)

Lemma fold_append {A : Type} (f : A -> string) l (lines : list string) :
  fold_left (fun lines x => Py.append lines (f x)) l lines
  = (lines ++ map f l)%list.
Proof.
  revert lines. induction l as [|x l IH]; intros lines; cbn.
  - now rewrite app_nil_r.
  - rewrite IH. unfold Py.append. now rewrite <- app_assoc.
Qed.

Lemma fold_append_id l (lines : list string) :
  fold_left Py.append l lines = (lines ++ l)%list.
Proof.
  rewrite <- (map_id l) at 2. apply (fold_append (fun x => x)).
Qed.

End Reporter.

(** ** The main business logic *)

Section Main.

Context `{RT : Runtime}.

(** *** The iteration of a set *)

Lemma set_iter_incl locations : incl (set_iter locations) locations.
Proof. intros x. apply set_iter_In. Qed.

Lemma set_iter_length locations :
  (List.length (set_iter locations) <= List.length locations)%nat.
Proof.
  apply NoDup_incl_length; [apply set_iter_NoDup | apply set_iter_incl].
Qed.

Lemma set_iter_length_NoDup locations :
  List.length (set_iter locations) = List.length locations <-> NoDup locations.
Proof.
  split.
  - intros Hlen.
    apply (@NoDup_incl_NoDup _ (set_iter locations) locations).
    + apply set_iter_NoDup.
    + rewrite Hlen. apply le_n.
    + intros x. apply set_iter_In.
  - intros Hnd. apply Nat.le_antisymm; [apply set_iter_length|].
    apply NoDup_incl_length; [exact Hnd|].
    intros x. apply set_iter_In.
Qed.

(** A list that holds one string, any number of times, is the set of that
    string. *)
Lemma set_iter_constant x locations :
  In x locations -> (forall y, In y locations -> y = x) ->
  set_iter locations = [x].
Proof.
  intros Hx Hall.
  pose proof (set_iter_NoDup locations) as Hnd.
  assert (Hin : In x (set_iter locations)) by now apply set_iter_In.
  assert (Hsame : forall y, In y (set_iter locations) -> y = x).
  { intros y Hy. apply Hall. now apply set_iter_In. }
  destruct (set_iter locations) as [|a [|b rest]].
  - contradiction.
  - f_equal. apply Hsame. now left.
  - exfalso. inversion Hnd as [|? ? Hnotin _]; subst. apply Hnotin.
    rewrite (Hsame a) by now left.
    rewrite <- (Hsame b) at 1 by (right; now left). now left.
Qed.

(** *** [main], with its loops and the monad unfolded *)

Lemma main_unfold locations sim t :
  main locations sim t =
    match snd (locations_to_searches (set_iter locations)) with
    | (_ :: _) as errors =>
        (Ok (Py.strip (Py.join Py.newline
                         (removed_lines locations ++ errors)%list), 1%Z), t)
    | [] =>
        match perform_searches
                (fst (locations_to_searches (set_iter locations))) sim t with
        | (Ok (succ, fail), t') =>
            (Ok (Py.strip (Py.join Py.newline
                             (removed_lines locations ++ success_block succ
                                ++ failure_block fail)%list),
                 match fail with _ :: _ => 2%Z | [] => 0%Z end), t')
        | (Raise e, t') => (Raise e, t')
        end
    end.
Proof.
  unfold main, removed_lines.
  destruct (locations_to_searches (set_iter locations)) as [searches errors].
  cbn [fst snd].
  set (delta := (Z.of_nat (List.length locations)
                 - Z.of_nat (List.length (set_iter locations)))%Z).
  destruct errors as [|e errors].
  - unfold bind, ret.
    destruct (perform_searches searches sim t) as [[[succ fail]|ex] t'];
      [|reflexivity].
    destruct (delta =? 0)%Z; cbn [negb];
      destruct succ as [|s succ], fail as [|f fail];
      unfold success_block, failure_block;
      rewrite ?fold_append; unfold Py.append;
      rewrite ?app_nil_r; cbn [app];
      rewrite <- ?app_assoc; reflexivity.
  - unfold ret. rewrite fold_append_id.
    now destruct (delta =? 0)%Z.
Qed.

(** *** What the lines look like at their ends *)

Lemma errors_solid locations :
  Forall (fun e => first_solid e = true /\ last_solid e = true)
         (snd (locations_to_searches locations)).
Proof.
  unfold locations_to_searches. rewrite fold_body_acc. cbn [snd app].
  apply Forall_flat_map, Forall_forall. intros location _.
  unfold locations_to_searches, locations_to_searches_body,
    Py.append, Py.extend.
  cbn [fold_left].
  destruct (Py.match_digits 5 location); [constructor|].
  destruct (negb (List.length (Py.split "," location) =? 2)%nat);
    cbn [snd app].
  { repeat constructor. now do 2 apply last_solid_app. }
  destruct (String.eqb _ ""), (negb (Py.str_in _ STATES));
    cbn [snd app]; repeat constructor;
    repeat (apply last_solid_app; try reflexivity).
Qed.

Lemma removed_lines_solid locations :
  Forall (fun l => first_solid l = true /\ last_solid l = true)
         (removed_lines locations).
Proof.
  unfold removed_lines. destruct (_ =? 0)%Z; repeat constructor.
  now do 2 apply last_solid_app.
Qed.

Lemma failure_message_solid message :
  failure_message message -> last_solid message = true.
Proof.
  intros [->|[status ->]]; [reflexivity|].
  unfold error_code_message. apply last_solid_app, str_of_int_solid.
Qed.

Lemma failure_line_solid failed :
  failure_message (snd failed) ->
  first_solid (failure_line failed) = true
  /\ last_solid (failure_line failed) = true.
Proof.
  intros Hm. split; [reflexivity|]. unfold failure_line.
  do 4 apply last_solid_app. now apply failure_message_solid.
Qed.

Lemma perform_searches_body_messages sim acc search t acc' t' :
  perform_searches_body sim acc search t = (Ok acc', t') ->
  Forall (fun f => failure_message (snd f)) (snd acc) ->
  Forall (fun f => failure_message (snd f)) (snd acc').
Proof.
  destruct acc as [succ fail]. cbn [snd].
  assert (Hcode : forall status,
             Forall (fun f => failure_message (snd f)) fail ->
             Forall (fun f : Search * string => failure_message (snd f))
                    (fail ++ [(search, error_code_message status)])%list).
  { intros status Hfail. apply Forall_app; split; [exact Hfail|].
    constructor; [|constructor]. right. now exists status. }
  destruct sim.
  - rewrite perform_searches_body_simulated. intros [= <- _]. apply Hcode.
  - rewrite perform_searches_body_real.
    destruct (requests_get t _ _) as [[status body]|e]; [|discriminate].
    cbv zeta.
    destruct (status =? 200)%Z; [|intros [= <- _]; apply Hcode].
    destruct (json_loads body) as [response_object|e]; [|discriminate].
    destruct (String.eqb (search_type search) SearchType.NAME_STATE).
    + destruct (py_len response_object) as [n|e]; [|discriminate].
      destruct (negb (n =? 0)%nat).
      * destruct (py_getitem0 response_object) as [first|e]; [|discriminate].
        destruct (py_contains "local_names" first) as [[|]|e]; [| |discriminate].
        -- destruct (py_delitem "local_names" first); [|discriminate].
           intros [= <- _]. trivial.
        -- intros [= <- _]. trivial.
      * intros [= <- _] Hfail. cbn [snd].
        apply Forall_app; split; [exact Hfail|].
        constructor; [|constructor]. now left.
    + destruct (py_contains "local_names" response_object) as [[|]|e];
        [| |discriminate].
      * destruct (py_delitem "local_names" response_object); [|discriminate].
        intros [= <- _]. trivial.
      * intros [= <- _]. trivial.
Qed.

Lemma perform_searches_messages searches sim t succ fail t' :
  perform_searches searches sim t = (Ok (succ, fail), t') ->
  Forall (fun f => failure_message (snd f)) fail.
Proof.
  intros Hrun.
  apply (for_each_invariant (perform_searches_body sim)
           (fun acc => Forall (fun f => failure_message (snd f)) (snd acc))
           (fun s x t0 s' t0' => perform_searches_body_messages sim s x t0 s' t0')
           searches ([], []) t (succ, fail) t' Hrun).
  constructor.
Qed.

End Main.

(** ** Claims about the main business logic *)

Section MainClaims.

Lemma rstrip_app a b :
  Py.rstrip (a ++ b) =
    match Py.rstrip b with
    | "" => Py.rstrip a
    | _ => a ++ Py.rstrip b
    end.
Proof.
  induction a as [|c a IH].
  - cbn. now destruct (Py.rstrip b).
  - cbn [append Py.rstrip]. rewrite IH.
    destruct (Py.rstrip b) as [|c' r'] eqn:Eb; [reflexivity|].
    now destruct a.
Qed.

Lemma rstrip_app_solid a b :
  last_solid a = true -> Py.rstrip (a ++ b) = a ++ Py.rstrip b.
Proof.
  intros Ha. rewrite rstrip_app, (rstrip_solid a Ha).
  destruct (Py.rstrip b); [now rewrite append_nil_r | reflexivity].
Qed.

(** A text that starts with a solid line keeps that line when stripped. *)
Lemma strip_join_head line rest :
  first_solid line = true -> last_solid line = true ->
  exists tail, Py.strip (Py.join Py.newline (line :: rest)) = line ++ tail.
Proof.
  intros Hf Hl. destruct rest as [|y rest].
  - exists "". cbn [Py.join String.concat].
    now rewrite strip_solid, append_nil_r.
  - rewrite join_cons. unfold Py.strip.
    rewrite lstrip_solid by now apply first_solid_app.
    rewrite rstrip_app_solid by assumption. eauto.
Qed.

(** A text whose lines all start solid and whose last lines end solid is
    left as it is. *)
Lemma strip_join_back front back :
  back <> [] ->
  Forall (fun l => first_solid l = true) (front ++ back)%list ->
  Forall (fun l => last_solid l = true) back ->
  Py.strip (Py.join Py.newline (front ++ back)%list)
  = Py.join Py.newline (front ++ back)%list.
Proof.
  intros Hback Hfirst Hlast.
  destruct (exists_last Hback) as (init & z & ->).
  assert (Hz : last_solid z = true).
  { apply Forall_app in Hlast as [_ Hz]. now inversion Hz. }
  rewrite app_assoc in *.
  destruct (front ++ init)%list as [|x rest] eqn:E; cbn [app] in *.
  - apply strip_solid; [now inversion Hfirst | exact Hz].
  - apply (strip_join x (rest ++ [z])%list (x :: rest) z); [reflexivity| |exact Hz].
    now inversion Hfirst.
Qed.

Context `{RT : Runtime}.

Lemma success_block_first_solid succ :
  Forall (fun l => first_solid l = true) (success_block succ).
Proof.
  unfold success_block. destruct succ as [|s succ]; constructor.
  - apply first_solid_app, str_of_int_solid.
  - apply Forall_map, Forall_forall. reflexivity.
Qed.

Lemma failure_block_solid fail :
  Forall (fun f => failure_message (snd f)) fail ->
  Forall (fun l => first_solid l = true) (failure_block fail)
  /\ Forall (fun l => last_solid l = true) (failure_block fail).
Proof.
  intros Hfail. unfold failure_block.
  destruct fail as [|f fail]; [split; constructor|].
  split; constructor.
  - apply first_solid_app, str_of_int_solid.
  - apply Forall_map, Forall_forall. reflexivity.
  - now apply last_solid_app.
  - apply Forall_map. eapply Forall_impl; [|exact Hfail].
    intros f' Hf'. now apply failure_line_solid.
Qed.

(** C2: when the classification of the locations gives at least one
    validation error, [main] returns with outcome code 1 whatever the
    failure simulation, without raising and with the trace of requests
    untouched, so that no lookup has taken place; the report is the line
    about removed duplicates, if any, followed by every validation error on
    its own line, and each validation error occurs in it. *)
Theorem validation_errors_abort locations sim t errors :
  snd (locations_to_searches (set_iter locations)) = errors ->
  errors <> [] ->
  main locations sim t
  = (Ok (Py.join Py.newline (removed_lines locations ++ errors)%list, 1%Z), t)
  /\ Forall (fun e =>
               occurs_in e (Py.join Py.newline
                              (removed_lines locations ++ errors)%list))
            errors.
Proof.
  intros Herrors Hne. split.
  - rewrite main_unfold, Herrors.
    destruct errors as [|e es]; [congruence|].
    rewrite strip_join_back; [reflexivity|discriminate| |].
    + apply Forall_app; split.
      * eapply Forall_impl; [|apply removed_lines_solid]. now intros l [H _].
      * rewrite <- Herrors.
        eapply Forall_impl; [|apply errors_solid]. now intros l [H _].
    + rewrite <- Herrors.
      eapply Forall_impl; [|apply errors_solid]. now intros l [_ H].
  - apply Forall_forall. intros e He.
    apply join_occurs, in_or_app. now right.
Qed.

(** C3: when the classification gives no validation error and
    [perform_searches] returns, [main] returns the outcome code 2 if the
    list of failed searches is not empty and 0 otherwise; the report is
    made of the line about duplicates, the block of the successes and the
    block of the failures, and when there are failures every successful
    search still occurs in it with its result. *)
Theorem lookup_outcome locations sim t succ fail t' :
  snd (locations_to_searches (set_iter locations)) = [] ->
  perform_searches (fst (locations_to_searches (set_iter locations))) sim t
  = (Ok (succ, fail), t') ->
  let lines :=
    (removed_lines locations ++ success_block succ ++ failure_block fail)%list in
  main locations sim t
  = (Ok (Py.strip (Py.join Py.newline lines),
         match fail with [] => 0%Z | _ :: _ => 2%Z end), t')
  /\ (fail <> [] ->
      Py.strip (Py.join Py.newline lines) = Py.join Py.newline lines
      /\ Forall (fun s => occurs_in (success_line s) (Py.join Py.newline lines))
                succ).
Proof.
  intros Herrors Hrun lines. split.
  - rewrite main_unfold, Herrors, Hrun. now destruct fail.
  - intros Hfail.
    destruct (failure_block_solid fail
                (perform_searches_messages _ _ _ _ _ _ Hrun)) as [Hff Hfl].
    split.
    + unfold lines. rewrite app_assoc. apply strip_join_back.
      * destruct fail; [congruence | discriminate].
      * rewrite <- app_assoc. repeat (apply Forall_app; split).
        -- eapply Forall_impl; [|apply removed_lines_solid]. now intros l [H _].
        -- apply success_block_first_solid.
        -- exact Hff.
      * exact Hfl.
    + apply Forall_forall. intros s Hs. apply join_occurs.
      unfold lines. apply in_or_app. right. apply in_or_app. left.
      unfold success_block. destruct succ; [contradiction|].
      right. now apply in_map.
Qed.

End MainClaims.

Section Deduplication.

Context `{RT : Runtime}.

(** A run over one search records one success or one failure. *)
Lemma perform_searches_one search sim t succ fail t' :
  perform_searches [search] sim t = (Ok (succ, fail), t') ->
  succ <> [] \/ fail <> [].
Proof.
  unfold perform_searches. cbn [for_each]. unfold bind, ret.
  destruct (perform_searches_body sim ([], []) search t)
    as [[[succ1 fail1]|e] t1] eqn:Ebody; [|discriminate].
  intros [= <- <- _]. revert Ebody.
  destruct sim.
  - rewrite perform_searches_body_simulated. intros [= _ <- _].
    right. discriminate.
  - rewrite perform_searches_body_real.
    destruct (requests_get t _ _) as [[status body]|e]; [|discriminate].
    cbv zeta.
    destruct (status =? 200)%Z; [|intros [= _ <- _]; right; discriminate].
    destruct (json_loads body) as [response_object|e]; [|discriminate].
    destruct (String.eqb (search_type search) SearchType.NAME_STATE).
    + destruct (py_len response_object) as [n|e]; [|discriminate].
      destruct (negb (n =? 0)%nat);
        [|intros [= _ <- _]; right; discriminate].
      destruct (py_getitem0 response_object) as [first|e]; [|discriminate].
      destruct (py_contains "local_names" first) as [[|]|e]; [| |discriminate].
      * destruct (py_delitem "local_names" first); [|discriminate].
        intros [= <- _ _]. left. discriminate.
      * intros [= <- _ _]. left. discriminate.
    + destruct (py_contains "local_names" response_object) as [[|]|e];
        [| |discriminate].
      * destruct (py_delitem "local_names" response_object); [|discriminate].
        intros [= <- _ _]. left. discriminate.
      * intros [= <- _ _]. left. discriminate.
Qed.

Lemma removed_lines_NoDup locations :
  NoDup locations -> removed_lines locations = [].
Proof.
  intros Hnd. unfold removed_lines.
  apply set_iter_length_NoDup in Hnd. rewrite Hnd, Z.sub_diag. reflexivity.
Qed.

Lemma removed_lines_duplicates locations :
  ~ NoDup locations ->
  exists n,
    (0 < n)%Z
    /\ n = (Z.of_nat (List.length locations)
            - Z.of_nat (List.length (set_iter locations)))%Z
    /\ removed_lines locations
       = ["Removed " ++ Py.str_of_int n
            ++ " duplicative location(s) from search"].
Proof.
  intros Hdup. unfold removed_lines.
  pose proof (set_iter_length locations) as Hle.
  assert (Hne : List.length (set_iter locations) <> List.length locations).
  { intros Heq. now apply Hdup, set_iter_length_NoDup. }
  eexists. split; [|split; [reflexivity|]].
  - lia.
  - destruct (Z.eqb_spec (Z.of_nat (List.length locations)
                          - Z.of_nat (List.length (set_iter locations))) 0);
      [lia | reflexivity].
Qed.

(** C5: the list that [main] classifies is [set(args.locations)]: it has
    no duplicates and the same members as the locations given, in an order
    the runtime chooses.  The report starts with the line that counts the
    removed locations exactly when some location is given more than once.
    For [["12345"; "12345"]] the run is the one of [["12345"]], with the
    same requests, the same outcome code and the same report after the line
    ["Removed 1 duplicative location(s) from search"]. *)
Theorem duplicates_removed :
  (forall locations,
      NoDup (set_iter locations)
      /\ (forall x, In x (set_iter locations) <-> In x locations))
  /\ (forall locations sim t,
         main locations sim t =
           match snd (locations_to_searches (set_iter locations)) with
           | (_ :: _) as errors =>
               (Ok (Py.strip (Py.join Py.newline
                                (removed_lines locations ++ errors)%list),
                    1%Z), t)
           | [] =>
               match perform_searches
                       (fst (locations_to_searches (set_iter locations)))
                       sim t with
               | (Ok (succ, fail), t') =>
                   (Ok (Py.strip (Py.join Py.newline
                                    (removed_lines locations
                                       ++ success_block succ
                                       ++ failure_block fail)%list),
                        match fail with _ :: _ => 2%Z | [] => 0%Z end), t')
               | (Raise e, t') => (Raise e, t')
               end
           end)
  /\ (forall locations, NoDup locations -> removed_lines locations = [])
  /\ (forall locations sim t report code t',
         ~ NoDup locations ->
         main locations sim t = (Ok (report, code), t') ->
         exists n tail,
           (0 < n)%Z
           /\ n = (Z.of_nat (List.length locations)
                   - Z.of_nat (List.length (set_iter locations)))%Z
           /\ report = ("Removed " ++ Py.str_of_int n
                          ++ " duplicative location(s) from search") ++ tail)
  /\ (forall sim t,
         main ["12345"; "12345"] sim t =
           match main ["12345"] sim t with
           | (Ok (report, code), t') =>
               (Ok ("Removed 1 duplicative location(s) from search"
                      ++ Py.newline ++ report, code), t')
           | (Raise e, t') => (Raise e, t')
           end).
Proof.
  split; [|split; [|split; [|split]]].
  - intros locations. split; [apply set_iter_NoDup|]. intros x. apply set_iter_In.
  - apply main_unfold.
  - apply removed_lines_NoDup.
  - intros locations sim t report code t' Hdup Hmain.
    destruct (removed_lines_duplicates locations Hdup) as (n & Hpos & Hn & Hline).
    exists n.
    assert (Hsolid : first_solid ("Removed " ++ Py.str_of_int n
                                    ++ " duplicative location(s) from search")
                     = true
                     /\ last_solid ("Removed " ++ Py.str_of_int n
                                      ++ " duplicative location(s) from search")
                        = true).
    { split; [reflexivity|]. now do 2 apply last_solid_app. }
    destruct Hsolid as [Hf Hl].
    remember ("Removed " ++ Py.str_of_int n
                ++ " duplicative location(s) from search") as line eqn:Eline.
    clear Eline.
    rewrite main_unfold, Hline in Hmain. cbn [app] in Hmain.
    destruct (snd (locations_to_searches (set_iter locations))) as [|e es].
    + destruct (perform_searches _ sim t) as [[[succ fail]|ex] t1];
        [|discriminate].
      destruct (strip_join_head _ (success_block succ ++ failure_block fail)%list
                  Hf Hl) as (tail & Htail).
      exists tail. repeat split; [assumption..|]. congruence.
    + destruct (strip_join_head _ (e :: es) Hf Hl) as (tail & Htail).
      exists tail. repeat split; [assumption..|]. congruence.
  - intros sim t.
    assert (Hset2 : set_iter ["12345"; "12345"] = ["12345"]).
    { apply set_iter_constant; [now left|].
      intros y [<-|[<-|[]]]; reflexivity. }
    assert (Hset1 : set_iter ["12345"] = ["12345"]).
    { apply set_iter_constant; [now left|]. intros y [<-|[]]; reflexivity. }
    assert (Hrem2 : removed_lines ["12345"; "12345"]
                    = ["Removed 1 duplicative location(s) from search"]).
    { unfold removed_lines. rewrite Hset2. reflexivity. }
    assert (Hrem1 : removed_lines ["12345"] = []).
    { unfold removed_lines. rewrite Hset1. reflexivity. }
    rewrite !main_unfold, Hrem2, Hrem1, Hset2, Hset1.
    change (locations_to_searches ["12345"])
      with ([mkSearch SearchType.ZIP_CODE "12345"], @nil string).
    cbn [fst snd app].
    destruct (perform_searches _ sim t) as [[[succ fail]|ex] t1] eqn:Erun;
      [|reflexivity].
    do 3 f_equal.
    set (block := (success_block succ ++ failure_block fail)%list).
    assert (Hblock : exists line rest,
               block = line :: rest /\ first_solid line = true).
    { pose proof (success_block_first_solid succ) as Hs.
      unfold block, success_block, failure_block in *.
      destruct (perform_searches_one _ _ _ _ _ _ Erun) as [H|H].
      - destruct succ; [congruence|]. cbn [app]. do 2 eexists.
        split; [reflexivity|]. now inversion Hs.
      - destruct succ; [|cbn [app]; do 2 eexists;
                         split; [reflexivity | now inversion Hs]].
        destruct fail; [congruence|]. cbn [app]. do 2 eexists.
        split; [reflexivity|]. apply first_solid_app, str_of_int_solid. }
    destruct Hblock as (line & rest & -> & Hline).
    rewrite join_cons. unfold Py.strip.
    rewrite (lstrip_solid (Py.join Py.newline (line :: rest)))
      by now apply join_first_solid.
    rewrite lstrip_solid by reflexivity.
    rewrite rstrip_app_solid by reflexivity.
    rewrite rstrip_app.
    destruct (rstrip_spec (Py.join Py.newline (line :: rest)))
      as (after & _ & _ & _ & Hkeep).
    specialize (Hkeep (join_first_solid _ _ _ Hline)).
    destruct (Py.rstrip (Py.join Py.newline (line :: rest)));
      [discriminate | reflexivity].
Qed.

End Deduplication.

(** ** The simulated web failure *)

Section SimulatedFailure.

Context `{RT : Runtime}.

(** C9: with [simulate_web_failure] the trace of requests is left as it
    was and every search is returned as a failure whose message carries
    the status 999 of the fake response, whatever the runtime; for the
    location ["cleveland,OH"] the report is the one failed search with that
    status and the outcome code is 2. *)
Theorem simulated_failure_report :
  (forall searches t,
      perform_searches searches true t
      = (Ok ([], map (fun s => (s, "Webserver returned error code: 999"))
                     searches), t))
  /\ (forall t,
         main ["cleveland,OH"] true t
         = (Ok ("1 failed search(es):" ++ Py.newline
                  ++ "Search: Name,State cleveland,OH" ++ Py.newline
                  ++ "Error: Webserver returned error code: 999", 2%Z), t)).
Proof.
  split.
  - intros searches t. unfold perform_searches.
    now rewrite for_each_simulated.
  - intros t.
    assert (Hset : set_iter ["cleveland,OH"] = ["cleveland,OH"]).
    { apply set_iter_constant; [now left|]. intros y [<-|[]]; reflexivity. }
    rewrite main_unfold. unfold removed_lines. rewrite Hset.
    change (locations_to_searches ["cleveland,OH"])
      with ([mkSearch SearchType.NAME_STATE "cleveland,OH"], @nil string).
    cbn [fst snd]. unfold perform_searches. rewrite for_each_simulated.
    reflexivity.
Qed.

End SimulatedFailure.

(** ** Runs of the model *)

Section Runs.

Lemma response_classification_witness :
  @perform_searches_body sample_runtime false ([], []) cleveland []
  = (Ok ([(cleveland,
           PyDict [("name", PyStr "Cleveland"); ("country", PyStr "US");
                   ("state", PyStr "Ohio")])], []),
     [request_for cleveland]).
Proof.
  exact (proj1 (proj2 (proj2 (proj2 (@response_classification sample_runtime)))
                  cleveland [] [] [] "direct cleveland"
                  [("name", PyStr "Cleveland");
                   ("local_names", PyDict [("en", PyStr "Cleveland")]);
                   ("country", PyStr "US"); ("state", PyStr "Ohio")]
                  [] eq_refl eq_refl eq_refl)).
Defined.

Lemma successes_carry_no_local_names_witness :
  Forall (fun sp =>
            py_contains "local_names" (snd sp) = Ok false
            /\ forall entries, snd sp = PyDict entries ->
                               has_key "local_names" entries = false)
         [(schenectady,
           PyDict [("zip", PyStr "12345"); ("name", PyStr "Schenectady");
                   ("country", PyStr "US")]);
          (cleveland,
           PyDict [("name", PyStr "Cleveland"); ("country", PyStr "US");
                   ("state", PyStr "Ohio")])].
Proof.
  exact (@successes_carry_no_local_names sample_runtime
           [schenectady; cleveland] false [] _ [] _ eq_refl).
Defined.

Lemma validation_errors_abort_witness :
  @main offline ["123"; ",zz"; "123"] false []
  = (Ok ("Removed 1 duplicative location(s) from search" ++ Py.newline
           ++ "Location ,zz's city is an empty string" ++ Py.newline
           ++ "Location ,zz's state ZZ not a valid US state" ++ Py.newline
           ++ "Location 123 does not contain one-and-only-one comma", 1%Z), [])
  /\ Forall (fun e =>
               occurs_in e
                 ("Removed 1 duplicative location(s) from search" ++ Py.newline
                    ++ "Location ,zz's city is an empty string" ++ Py.newline
                    ++ "Location ,zz's state ZZ not a valid US state" ++ Py.newline
                    ++ "Location 123 does not contain one-and-only-one comma"))
            ["Location ,zz's city is an empty string";
             "Location ,zz's state ZZ not a valid US state";
             "Location 123 does not contain one-and-only-one comma"].
Proof.
  refine (@validation_errors_abort offline ["123"; ",zz"; "123"] false [] _
            eq_refl _).
  discriminate.
Defined.

Lemma lookup_outcome_witness :
  let lines :=
    ["2 successful search(es):";
     "Search: Zip code 12345" ++ Py.newline ++ "Result: {zip, name, country}";
     "Search: Name,State cleveland,OH" ++ Py.newline
       ++ "Result: {name, country, state}";
     "2 failed search(es):";
     "Search: Name,State springfield,OH" ++ Py.newline
       ++ "Error: Webserver response had no matching responses";
     "Search: Name,State akron,OH" ++ Py.newline
       ++ "Error: Webserver returned error code: 404"] in
  @main sample_runtime
    ["12345"; "cleveland, oh"; "springfield,oh"; "akron,OH"] false []
  = (Ok (Py.strip (Py.join Py.newline lines), 2%Z),
     map request_for
       [schenectady; cleveland;
        mkSearch SearchType.NAME_STATE "springfield,OH";
        mkSearch SearchType.NAME_STATE "akron,OH"])
  /\ (Py.strip (Py.join Py.newline lines) = Py.join Py.newline lines
      /\ Forall (fun s =>
                   occurs_in (@success_line sample_runtime s)
                     (Py.join Py.newline lines))
                [(schenectady,
                  PyDict [("zip", PyStr "12345"); ("name", PyStr "Schenectady");
                          ("country", PyStr "US")]);
                 (cleveland,
                  PyDict [("name", PyStr "Cleveland"); ("country", PyStr "US");
                          ("state", PyStr "Ohio")])]).
Proof.
  pose proof (@lookup_outcome sample_runtime
                ["12345"; "cleveland, oh"; "springfield,oh"; "akron,OH"]
                false [] _ _ _ eq_refl eq_refl) as [Hmain Hreport].
  split; [exact Hmain|]. apply Hreport. discriminate.
Defined.

End Runs.


(** * Further properties of the code *)

(** ** Tokens and commas *)

Section Tokens.

Lemma count_char_app c a b :
  count_char c (a ++ b) = (count_char c a + count_char c b)%nat.
Proof.
  induction a as [|x a IH]; [reflexivity|].
  cbn [append count_char]. rewrite IH. apply Nat.add_assoc.
Qed.

(** [k] separators give [k + 1] tokens. *)
Lemma split_length sep s :
  List.length (Py.split sep s) = S (count_char sep s).
Proof.
  induction s as [|c r IH]; [reflexivity|].
  cbn [Py.split count_char]. destruct (Ascii.eqb c sep).
  - cbn [List.length]. now rewrite IH.
  - destruct (Py.split sep r) as [|tok toks]; [discriminate IH|].
    cbn [List.length] in *. exact IH.
Qed.

(** No token holds the separator. *)
Lemma split_tokens_clean sep s :
  Forall (fun tok => count_char sep tok = 0%nat) (Py.split sep s).
Proof.
  induction s as [|c r IH]; [repeat constructor|].
  cbn [Py.split]. destruct (Ascii.eqb c sep) eqn:E.
  - constructor; [reflexivity | exact IH].
  - destruct (Py.split sep r) as [|tok toks].
    + constructor; [|constructor]. cbn. now rewrite E.
    + inversion IH as [|? ? Htok Htoks]; subst.
      constructor; [|exact Htoks]. cbn [count_char]. now rewrite E, Htok.
Qed.

Lemma split_clean sep s :
  count_char sep s = 0%nat -> Py.split sep s = [s].
Proof.
  induction s as [|c r IH]; [reflexivity|].
  cbn [Py.split count_char]. destruct (Ascii.eqb c sep); [discriminate|].
  intros H. now rewrite (IH H).
Qed.

(** Splitting what was joined with one separator gives the two parts. *)
Lemma split_pair sep a b :
  count_char sep a = 0%nat -> count_char sep b = 0%nat ->
  Py.split sep (a ++ String sep b) = [a; b].
Proof.
  intros Ha Hb. induction a as [|c a IH].
  - cbn [append Py.split]. rewrite Ascii.eqb_refl. now rewrite split_clean.
  - cbn [append Py.split count_char] in *.
    destruct (Ascii.eqb c sep); [discriminate|]. now rewrite (IH Ha).
Qed.

(** Stripping does not add separators. *)
Lemma strip_clean sep s :
  count_char sep s = 0%nat -> count_char sep (Py.strip s) = 0%nat.
Proof.
  intros Hs. destruct (strip_spec s) as (before & after & Heq & _).
  rewrite Heq, !count_char_app in Hs. lia.
Qed.

Lemma strip_idempotent s : Py.strip (Py.strip s) = Py.strip s.
Proof.
  destruct (strip_spec s) as (_ & _ & _ & _ & _ & [H|[Hf Hl]]).
  - now rewrite H.
  - now apply strip_solid.
Qed.

End Tokens.

(** ** More about the classifier *)

Section ClassifierMore.

(** A location with exactly two tokens that does not start with five
    digits. *)
Lemma classify_pair location city state :
  Py.match_digits 5 location = false ->
  Py.split "," location = [city; state] ->
  locations_to_searches [location] =
    if negb (String.eqb (Py.strip city) "")
       && Py.str_in (Py.upper (Py.strip state)) STATES
    then ([mkSearch SearchType.NAME_STATE
             (Py.strip city ++ "," ++ Py.upper (Py.strip state))], [])
    else ([],
          ((if String.eqb (Py.strip city) "" then [city_error location] else [])
             ++ (if Py.str_in (Py.upper (Py.strip state)) STATES then []
                 else [state_error location (Py.upper (Py.strip state))]))%list).
Proof.
  intros Hzip Hsplit.
  unfold locations_to_searches, locations_to_searches_body,
    Py.append, Py.extend, city_error, state_error.
  cbn [fold_left]. rewrite Hzip, Hsplit. cbn [List.length Nat.eqb negb nth].
  destruct (String.eqb (Py.strip city) ""),
    (Py.str_in (Py.upper (Py.strip state)) STATES); reflexivity.
Qed.

Lemma states_clean :
  Forall (fun st => Py.strip st = st /\ Py.upper st = st
                    /\ count_char "," st = 0%nat)
         STATES.
Proof.
  apply Forall_forall. intros st Hin.
  assert (H : forallb (fun st => String.eqb (Py.strip st) st
                                 && String.eqb (Py.upper st) st
                                 && (count_char "," st =? 0)%nat) STATES = true)
    by reflexivity.
  rewrite forallb_forall in H. specialize (H st Hin).
  apply andb_true_iff in H as [H Hc]. apply andb_true_iff in H as [Hs Hu].
  repeat split; [now apply String.eqb_eq.. | now apply Nat.eqb_eq].
Qed.

Lemma In_str_in x l : In x l -> Py.str_in x l = true.
Proof.
  intros Hin. unfold Py.str_in. apply existsb_exists.
  exists x. split; [exact Hin | apply String.eqb_refl].
Qed.

(** X1: a location of ASCII text that does not start with five digits and
    whose number of commas is not one gives no search and the single error
    "does not contain one-and-only-one comma"; neither the city nor the
    state is looked at. *)
Theorem comma_count_error location :
  ascii_text location ->
  Py.match_digits 5 location = false ->
  count_char "," location <> 1%nat ->
  locations_to_searches [location]
  = ([], ["Location " ++ location ++ " does not contain one-and-only-one comma"]).
Proof.
  intros _ Hzip Hcount.
  unfold locations_to_searches, locations_to_searches_body, Py.append.
  cbn [fold_left]. rewrite Hzip, split_length.
  destruct (Nat.eqb_spec (S (count_char "," location)) 2) as [E|E].
  - exfalso. apply Hcount. lia.
  - reflexivity.
Qed.

Lemma comma_count_error_witness :
  locations_to_searches ["Paris,TX,US"]
  = ([], ["Location Paris,TX,US does not contain one-and-only-one comma"]).
Proof.
  apply (comma_count_error "Paris,TX,US");
    [reflexivity | reflexivity | discriminate].
Defined.

(** X2: for a location [city,state] of ASCII text with one comma that does
    not start with five digits, the city error is reported when the stripped city is empty
    and the state error when the stripped, uppercased state is not in
    [STATES]; both are reported, the city first, when both hold, and the
    search is produced only when neither holds. *)
Theorem one_comma_classification location city state :
  ascii_text location ->
  location = city ++ "," ++ state ->
  count_char "," city = 0%nat -> count_char "," state = 0%nat ->
  Py.match_digits 5 location = false ->
  locations_to_searches [location] =
    if negb (String.eqb (Py.strip city) "")
       && Py.str_in (Py.upper (Py.strip state)) STATES
    then ([mkSearch SearchType.NAME_STATE
             (Py.strip city ++ "," ++ Py.upper (Py.strip state))], [])
    else ([],
          ((if String.eqb (Py.strip city) "" then [city_error location] else [])
             ++ (if Py.str_in (Py.upper (Py.strip state)) STATES then []
                 else [state_error location (Py.upper (Py.strip state))]))%list).
Proof.
  intros _ -> Hcity Hstate Hzip. apply classify_pair; [exact Hzip|].
  now apply split_pair.
Qed.

Lemma one_comma_classification_witness :
  locations_to_searches ["  ,zz"]
  = ([], ["Location   ,zz's city is an empty string";
          "Location   ,zz's state ZZ not a valid US state"]).
Proof.
  apply (one_comma_classification "  ,zz" "  " "zz"); reflexivity.
Defined.

(** Without errors, every location gave a search. *)
Lemma no_errors_all_searches locations :
  snd (locations_to_searches locations) = [] ->
  List.length (fst (locations_to_searches locations)) = List.length locations.
Proof.
  unfold locations_to_searches. rewrite fold_body_acc. cbn [fst snd app].
  induction locations as [|l locations IH]; [reflexivity|].
  cbn [flat_map List.length]. rewrite length_app.
  destruct (locations_to_searches_single l) as [(s & ->)|(e & es & -> & _)];
    cbn [fst snd List.length app]; [|discriminate].
  intros H. now rewrite IH.
Qed.

Lemma searches_at_most_locations locations :
  (List.length (fst (locations_to_searches locations))
   <= List.length locations)%nat.
Proof.
  unfold locations_to_searches. rewrite fold_body_acc. cbn [fst app].
  induction locations as [|l locations IH]; [apply le_n|].
  cbn [flat_map List.length]. rewrite length_app.
  destruct (locations_to_searches_single l) as [(s & ->)|(e & es & -> & _)];
    cbn [fst List.length]; lia.
Qed.

(** X3: the classifier returns at most one search per location and at most
    two errors per location without a search, and it returns no error
    exactly when every location gave a search. *)
Theorem classification_counts locations :
  let searches := fst (locations_to_searches locations) in
  let errors := snd (locations_to_searches locations) in
  (List.length searches <= List.length locations)%nat
  /\ (List.length errors
      <= 2 * (List.length locations - List.length searches))%nat
  /\ (errors = [] <-> List.length searches = List.length locations).
Proof.
  cbv zeta. unfold locations_to_searches.
  rewrite fold_body_acc. cbn [fst snd app].
  induction locations as [|l locations (IH1 & IH2 & IH3)].
  - cbn. repeat split; lia.
  - cbn [flat_map List.length]. rewrite !length_app.
    destruct (locations_to_searches_single l) as [(s & ->)|(e & es & -> & Hes)];
      cbn [fst snd List.length app].
    + split; [lia|]. split; [lia|]. split; intros H.
      * apply IH3 in H. lia.
      * apply IH3. lia.
    + split; [lia|]. split; [lia|]. split; intros H; [discriminate | lia].
Qed.

(** The search of one location. *)
Lemma single_search_shape location :
  Forall (fun s =>
            (search_type s = SearchType.ZIP_CODE
             /\ value s = location
             /\ Py.match_digits 5 (value s) = true)
            \/ (search_type s = SearchType.NAME_STATE
                /\ exists city state,
                     value s = city ++ "," ++ state
                     /\ In state STATES
                     /\ count_char "," city = 0%nat
                     /\ first_solid city = true /\ last_solid city = true))
         (fst (locations_to_searches [location])).
Proof.
  unfold locations_to_searches, locations_to_searches_body,
    Py.append, Py.extend.
  cbn [fold_left].
  destruct (Py.match_digits 5 location) eqn:Hzip.
  { cbn [fst app]. constructor; [|constructor]. left. now repeat split. }
  pose proof (split_tokens_clean "," location) as Hclean.
  destruct (Py.split "," location) as [|city [|state [|more toks]]];
    cbn [List.length Nat.eqb negb fst app nth]; try constructor.
  destruct (String.eqb (Py.strip city) "") eqn:Ecity;
    destruct (Py.str_in (Py.upper (Py.strip state)) STATES) eqn:Estate;
    cbn [negb fst app]; try constructor; [|constructor].
  right. split; [reflexivity|].
  exists (Py.strip city), (Py.upper (Py.strip state)). cbn [value].
  split; [reflexivity|]. split; [now apply str_in_In|].
  split; [apply strip_clean; now inversion Hclean|].
  destruct (strip_spec city) as (_ & _ & _ & _ & _ & [H|H]); [|exact H].
  rewrite H in Ecity. discriminate.
Qed.

(** X4: for locations of ASCII text, every search the classifier returns is
    a zip-code search whose value is one of the locations and starts with five digits, or a name/state
    search whose value is a city without comma and without surrounding
    whitespace, not empty, then a comma, then one of [STATES]. *)
Theorem searches_well_formed locations :
  Forall ascii_text locations ->
  Forall (fun s =>
            (search_type s = SearchType.ZIP_CODE
             /\ In (value s) locations
             /\ Py.match_digits 5 (value s) = true)
            \/ (search_type s = SearchType.NAME_STATE
                /\ exists city state,
                     value s = city ++ "," ++ state
                     /\ In state STATES
                     /\ count_char "," city = 0%nat
                     /\ first_solid city = true /\ last_solid city = true))
         (fst (locations_to_searches locations)).
Proof.
  intros _.
  unfold locations_to_searches at 1. rewrite fold_body_acc. cbn [fst app].
  apply Forall_flat_map, Forall_forall. intros location Hin.
  eapply Forall_impl; [|apply single_search_shape].
  intros s [(Hty & Hval & Hzip)|H]; [left | now right].
  repeat split; [exact Hty | now rewrite Hval | exact Hzip].
Qed.

Lemma searches_well_formed_witness :
  Forall (fun s =>
            (search_type s = SearchType.ZIP_CODE
             /\ In (value s) ["12345abc"; " akron , oh"; "nowhere"]
             /\ Py.match_digits 5 (value s) = true)
            \/ (search_type s = SearchType.NAME_STATE
                /\ exists city state,
                     value s = city ++ "," ++ state
                     /\ In state STATES
                     /\ count_char "," city = 0%nat
                     /\ first_solid city = true /\ last_solid city = true))
         [mkSearch SearchType.ZIP_CODE "12345abc";
          mkSearch SearchType.NAME_STATE "akron,OH"].
Proof.
  apply (searches_well_formed ["12345abc"; " akron , oh"; "nowhere"]).
  repeat constructor.
Defined.

(** X5: for a location of ASCII text, classifying the value of its
    name/state search again gives the same search, unless the value starts with five digits: a city such as
    [12345x], reached behind leading whitespace, is then taken for a zip
    code. *)
Theorem name_state_value_reclassified :
  (forall location s,
      ascii_text location ->
      locations_to_searches [location] = ([s], []) ->
      search_type s = SearchType.NAME_STATE ->
      Py.match_digits 5 (value s) = false ->
      locations_to_searches [value s] = ([s], []))
  /\ locations_to_searches [" 12345x,oh"]
     = ([mkSearch SearchType.NAME_STATE "12345x,OH"], [])
  /\ locations_to_searches ["12345x,OH"]
     = ([mkSearch SearchType.ZIP_CODE "12345x,OH"], []).
Proof.
  split; [|split; reflexivity].
  intros location s _ Hrun Htype Hzip.
  pose proof (single_search_shape location) as Hwf.
  rewrite Hrun in Hwf. cbn [fst] in Hwf.
  inversion Hwf as [|? ? [(Hz & _)|(_ & city & state & Hval & Hst & Hc & Hf & Hl)] _];
    subst.
  { rewrite Htype in Hz. discriminate. }
  pose proof states_clean as Hstates. rewrite Forall_forall in Hstates.
  destruct (Hstates state Hst) as (Hstrip & Hupper & Hcomma).
  rewrite (classify_pair (value s) city state Hzip)
    by (rewrite Hval; now apply split_pair).
  rewrite (strip_solid city Hf Hl), Hstrip, Hupper, (In_str_in _ _ Hst).
  destruct city as [|c city]; [discriminate Hf|]. cbn [String.eqb negb andb].
  destruct s as [ty v]. cbn in *. subst. reflexivity.
Qed.

Lemma name_state_value_reclassified_witness :
  locations_to_searches ["New York,NY"]
  = ([mkSearch SearchType.NAME_STATE "New York,NY"], []).
Proof.
  apply (proj1 name_state_value_reclassified "  New York , ny"
           (mkSearch SearchType.NAME_STATE "New York,NY")); reflexivity.
Defined.

(** X6: the search of a [city,state] location of ASCII text depends on the city only up
    to surrounding whitespace and on the state only up to surrounding
    whitespace and letter case: two such locations that agree on both give
    the same search, although as raw strings they are different
    locations. *)
Theorem classification_insensitive l1 city1 state1 l2 city2 state2 :
  ascii_text l1 -> ascii_text l2 ->
  l1 = city1 ++ "," ++ state1 -> l2 = city2 ++ "," ++ state2 ->
  count_char "," city1 = 0%nat -> count_char "," state1 = 0%nat ->
  count_char "," city2 = 0%nat -> count_char "," state2 = 0%nat ->
  Py.match_digits 5 l1 = false -> Py.match_digits 5 l2 = false ->
  Py.strip city1 = Py.strip city2 ->
  Py.upper (Py.strip state1) = Py.upper (Py.strip state2) ->
  fst (locations_to_searches [l1]) = fst (locations_to_searches [l2]).
Proof.
  intros _ _ H1 H2 Hc1 Hs1 Hc2 Hs2 Hz1 Hz2 Hcity Hstate.
  rewrite (classify_pair l1 city1 state1 Hz1)
    by (rewrite H1; now apply split_pair).
  rewrite (classify_pair l2 city2 state2 Hz2)
    by (rewrite H2; now apply split_pair).
  rewrite Hcity, Hstate.
  now destruct (negb (String.eqb (Py.strip city2) "")
                && Py.str_in (Py.upper (Py.strip state2)) STATES).
Qed.

Lemma classification_insensitive_witness :
  fst (locations_to_searches ["cleveland,OH"])
  = fst (locations_to_searches [" cleveland , oh "]).
Proof.
  apply (classification_insensitive
           "cleveland,OH" "cleveland" "OH"
           " cleveland , oh " " cleveland " " oh "); reflexivity.
Defined.

End ClassifierMore.

(** ** More about the search executor *)

Section ExecutorMore.

Lemma for_each_app {A S : Type} (body : S -> A -> M S) l1 l2 s t :
  for_each body (l1 ++ l2)%list s t =
    match for_each body l1 s t with
    | (Ok s1, t1) => for_each body l2 s1 t1
    | (Raise e, t1) => (Raise e, t1)
    end.
Proof.
  revert s t. induction l1 as [|x l1 IH]; intros s t; [reflexivity|].
  cbn [app for_each]. unfold bind.
  destruct (body s x t) as [[s1|e] t1]; [apply IH | reflexivity].
Qed.

Context `{RT : Runtime}.

(** One iteration: the request joins the trace unless the failure is
    simulated, and the search joins one of the two lists unless an exception
    is raised. *)
Lemma perform_searches_body_step sim succ fail search t r t' :
  perform_searches_body sim (succ, fail) search t = (r, t') ->
  t' = (if sim then t else (t ++ [request_for search])%list)
  /\ match r with
     | Ok acc' =>
         (exists payload, acc' = ((succ ++ [(search, payload)])%list, fail))
         \/ (exists message, acc' = (succ, (fail ++ [(search, message)])%list))
     | Raise _ => sim = false
     end.
Proof.
  destruct sim.
  - rewrite perform_searches_body_simulated. intros [= <- <-].
    split; [reflexivity|]. right. eauto.
  - rewrite perform_searches_body_real.
    destruct (requests_get t _ _) as [[status body]|e];
      [|intros [= <- <-]; now split].
    cbv zeta.
    destruct (status =? 200)%Z;
      [|intros [= <- <-]; split; [reflexivity | right; eauto]].
    destruct (json_loads body) as [response_object|e];
      [|intros [= <- <-]; now split].
    assert (Hkeep : forall first_response,
               match py_contains "local_names" first_response with
               | Ok true =>
                   match py_delitem "local_names" first_response with
                   | Ok o => (Ok ((succ ++ [(search, o)])%list, fail),
                              (t ++ [request_for search])%list)
                   | Raise e => (Raise e, (t ++ [request_for search])%list)
                   end
               | Ok false =>
                   (Ok ((succ ++ [(search, first_response)])%list, fail),
                    (t ++ [request_for search])%list)
               | Raise e => (Raise e, (t ++ [request_for search])%list)
               end = (r, t') ->
               t' = (t ++ [request_for search])%list
               /\ match r with
                  | Ok acc' =>
                      (exists payload,
                          acc' = ((succ ++ [(search, payload)])%list, fail))
                      \/ (exists message,
                             acc' = (succ, (fail ++ [(search, message)])%list))
                  | Raise _ => false = false
                  end).
    { intros first_response.
      destruct (py_contains "local_names" first_response) as [[|]|e].
      - destruct (py_delitem "local_names" first_response) as [o|e];
          intros [= <- <-]; split; try reflexivity. left. eauto.
      - intros [= <- <-]. split; [reflexivity|]. left. eauto.
      - intros [= <- <-]. now split. }
    destruct (String.eqb (search_type search) SearchType.NAME_STATE).
    + destruct (py_len response_object) as [n|e];
        [|intros [= <- <-]; now split].
      destruct (negb (n =? 0)%nat);
        [|intros [= <- <-]; split; [reflexivity | right; eauto]].
      destruct (py_getitem0 response_object) as [first|e];
        [apply Hkeep | intros [= <- <-]; now split].
    + apply Hkeep.
Qed.

Lemma for_each_accounted searches sim succ0 fail0 t succ fail t' :
  for_each (perform_searches_body sim) searches (succ0, fail0) t
  = (Ok (succ, fail), t') ->
  t' = (if sim then t else (t ++ map request_for searches)%list)
  /\ exists ds df,
       succ = (succ0 ++ ds)%list /\ fail = (fail0 ++ df)%list
       /\ Permutation (map fst ds ++ map fst df)%list searches.
Proof.
  revert succ0 fail0 t.
  induction searches as [|s searches IH]; intros succ0 fail0 t Hrun.
  - cbn in Hrun. unfold ret in Hrun. injection Hrun as <- <- <-.
    split; [destruct sim; now rewrite ?app_nil_r|].
    exists [], []. now rewrite !app_nil_r.
  - cbn [for_each] in Hrun. unfold bind in Hrun.
    destruct (perform_searches_body sim (succ0, fail0) s t)
      as [[acc1|e] t1] eqn:Estep; [|discriminate].
    apply perform_searches_body_step in Estep as [Ht1 Hacc].
    destruct Hacc as [(p & ->)|(m & ->)];
      apply IH in Hrun as (Ht' & ds & df & -> & -> & Hperm).
    + split.
      * subst. destruct sim; [reflexivity|]. cbn [map].
        now rewrite <- app_assoc.
      * exists ((s, p) :: ds), df. rewrite <- app_assoc.
        repeat split. cbn [map fst app]. now constructor.
    + split.
      * subst. destruct sim; [reflexivity|]. cbn [map].
        now rewrite <- app_assoc.
      * exists ds, ((s, m) :: df). rewrite <- app_assoc.
        repeat split. cbn [map fst]. symmetry.
        apply Permutation_cons_app. now symmetry.
Qed.

(** X7: when [perform_searches] returns, every search is in exactly one of
    the two lists: the searches of the successes and of the failures are,
    together, a rearrangement of the searches given.  Without the simulated
    failure one request per search was issued, in the order of the searches;
    with it the trace is as before. *)
Theorem every_search_accounted searches sim t succ fail t' :
  perform_searches searches sim t = (Ok (succ, fail), t') ->
  t' = (if sim then t else (t ++ map request_for searches)%list)
  /\ (List.length succ + List.length fail)%nat = List.length searches
  /\ Permutation (map fst succ ++ map fst fail)%list searches.
Proof.
  intros Hrun. unfold perform_searches in Hrun.
  apply for_each_accounted in Hrun as (Ht & ds & df & -> & -> & Hperm).
  cbn [app]. split; [exact Ht|]. split; [|exact Hperm].
  apply Permutation_length in Hperm.
  now rewrite length_app, !length_map in Hperm.
Qed.


(** X8: an exception of [requests.get], and a body that [json.loads]
    rejects in a response with status 200, are not recorded as failures: the
    exception leaves [perform_searches], what the earlier searches gave is
    lost, and the later searches are never requested. *)
Theorem exception_aborts_searches :
  (forall before search after t acc t1 e,
      perform_searches before false t = (Ok acc, t1) ->
      requests_get t1 (fst (request_for search)) (snd (request_for search))
      = Raise e ->
      perform_searches (before ++ search :: after) false t
      = (Raise e, (t1 ++ [request_for search])%list))
  /\ (forall before search after t acc t1 body e,
         perform_searches before false t = (Ok acc, t1) ->
         requests_get t1 (fst (request_for search)) (snd (request_for search))
         = Ok (200%Z, body) ->
         json_loads body = Raise e ->
         perform_searches (before ++ search :: after) false t
         = (Raise e, (t1 ++ [request_for search])%list)).
Proof.
  split.
  - intros before search after t [succ fail] t1 e Hbefore Hget.
    unfold perform_searches in *. rewrite for_each_app, Hbefore.
    cbn [for_each]. unfold bind.
    now rewrite perform_searches_body_real, Hget.
  - intros before search after t [succ fail] t1 body e Hbefore Hget Hjson.
    unfold perform_searches in *. rewrite for_each_app, Hbefore.
    cbn [for_each]. unfold bind.
    rewrite perform_searches_body_real, Hget. cbv zeta.
    now rewrite Hjson.
Qed.


(** X9: for a search that is not a name/state search, a response with
    status 200 whose body is a JSON object is a success with that object,
    less its ["local_names"] entry, as payload; the object is not tested for
    emptiness, so that the empty object is a success too. *)
Theorem zip_response_used_whole search succ fail t body record :
  String.eqb (search_type search) SearchType.NAME_STATE = false ->
  requests_get t (fst (request_for search)) (snd (request_for search))
  = Ok (200%Z, body) ->
  json_loads body = Ok (PyDict record) ->
  perform_searches_body false (succ, fail) search t
  = (Ok ((succ ++ [(search, PyDict (remove_key "local_names" record))])%list,
         fail),
     (t ++ [request_for search])%list).
Proof.
  intros Htype Hget Hjson.
  rewrite perform_searches_body_real, Hget. cbv zeta.
  rewrite Hjson, Htype. cbn [py_contains py_delitem].
  destruct (has_key "local_names" record) eqn:E; [reflexivity|].
  now rewrite remove_key_absent.
Qed.


End ExecutorMore.

Section ExecutorRuns.

Lemma every_search_accounted_witness :
  [request_for schenectady; request_for (mkSearch SearchType.NAME_STATE "akron,OH")]
  = ([] ++ map request_for
             [schenectady; mkSearch SearchType.NAME_STATE "akron,OH"])%list
  /\ (1 + 1)%nat = 2%nat
  /\ Permutation
       (map fst [(schenectady,
                  PyDict [("zip", PyStr "12345"); ("name", PyStr "Schenectady");
                          ("country", PyStr "US")])]
          ++ map fst [(mkSearch SearchType.NAME_STATE "akron,OH",
                       "Webserver returned error code: 404")])%list
       [schenectady; mkSearch SearchType.NAME_STATE "akron,OH"].
Proof.
  exact (@every_search_accounted sample_runtime
           [schenectady; mkSearch SearchType.NAME_STATE "akron,OH"]
           false [] _ _ _ eq_refl).
Defined.

Lemma exception_aborts_searches_witness :
  @perform_searches offline ([] ++ schenectady :: [cleveland]) false []
  = (Raise RequestException, ([] ++ [request_for schenectady])%list).
Proof.
  exact (proj1 (@exception_aborts_searches offline)
           [] schenectady [cleveland] [] ([], []) [] RequestException
           eq_refl eq_refl).
Defined.

Lemma zip_response_used_whole_witness :
  @perform_searches_body sample_runtime false ([], []) schenectady []
  = (Ok (([] ++ [(schenectady,
                  PyDict (remove_key "local_names"
                            [("zip", PyStr "12345"); ("name", PyStr "Schenectady");
                             ("local_names", PyDict [("en", PyStr "Schenectady")]);
                             ("country", PyStr "US")]))])%list, []),
     ([] ++ [request_for schenectady])%list).
Proof.
  exact (@zip_response_used_whole sample_runtime schenectady [] [] []
           "zip 12345" _ eq_refl eq_refl eq_refl).
Defined.

End ExecutorRuns.

(** ** More about the main business logic *)

Section MainMore.

Context `{RT : Runtime}.

(** The requests of a run of the loop, however it ends, are those of the
    first searches. *)
Lemma for_each_trace searches sim acc t r t' :
  for_each (perform_searches_body sim) searches acc t = (r, t') ->
  exists k, (k <= List.length searches)%nat
            /\ t' = (t ++ map request_for (firstn k searches))%list.
Proof.
  destruct sim.
  - destruct acc as [succ fail]. rewrite for_each_simulated.
    intros [= _ <-]. exists 0%nat. split; [lia | now rewrite app_nil_r].
  - revert acc t. induction searches as [|s searches IH]; intros acc t Hrun.
    + cbn in Hrun. injection Hrun as _ <-. exists 0%nat.
      split; [apply le_n | now rewrite app_nil_r].
    + cbn [for_each] in Hrun. unfold bind in Hrun. destruct acc as [succ fail].
      destruct (perform_searches_body false (succ, fail) s t)
        as [[acc1|e] t1] eqn:Estep;
        apply perform_searches_body_step in Estep as [-> _].
      * apply IH in Hrun as (k & Hk & ->).
        exists (S k). split; [cbn; lia|]. cbn [firstn map].
        now rewrite <- app_assoc.
      * injection Hrun as _ <-. exists 1%nat.
        split; [cbn; lia | reflexivity].
Qed.

Lemma set_iter_nonempty locations : locations <> [] -> set_iter locations <> [].
Proof.
  destruct locations as [|l locations]; [congruence|]. intros _ Hnil.
  assert (Hin : In l (set_iter (l :: locations)))
    by (apply set_iter_In; now left).
  now rewrite Hnil in Hin.
Qed.

(** X10: what the outcome code of [main] says.  Code 1: there were
    validation errors and no request was issued.  Otherwise there were none
    and every distinct location was searched: code 0 when all the searches
    succeeded, code 2 when at least one failed.  No other code is
    returned. *)
Theorem outcome_code_meaning locations sim t report code t' :
  main locations sim t = (Ok (report, code), t') ->
  (code = 1%Z
   /\ snd (locations_to_searches (set_iter locations)) <> [] /\ t' = t)
  \/ (snd (locations_to_searches (set_iter locations)) = []
      /\ exists succ fail,
           perform_searches (fst (locations_to_searches (set_iter locations)))
             sim t = (Ok (succ, fail), t')
           /\ (List.length succ + List.length fail)%nat
              = List.length (set_iter locations)
           /\ ((code = 0%Z /\ fail = []) \/ (code = 2%Z /\ fail <> []))).
Proof.
  rewrite main_unfold.
  destruct (snd (locations_to_searches (set_iter locations))) as [|e es] eqn:Eerr.
  - destruct (perform_searches _ sim t) as [[[succ fail]|ex] t1] eqn:Erun;
      [|discriminate].
    intros Hmain. right. split; [reflexivity|]. exists succ, fail.
    assert (Ht : t1 = t') by congruence. subst t1.
    split; [reflexivity|]. split.
    + unfold perform_searches in Erun.
      apply for_each_accounted in Erun as (_ & ds & df & -> & -> & Hperm).
      apply Permutation_length in Hperm.
      rewrite length_app, !length_map in Hperm. cbn [app].
      now rewrite Hperm, no_errors_all_searches.
    + destruct fail; [left | right]; split; congruence.
  - intros Hmain. left. repeat split; congruence.
Qed.

(** X11: once [parse_args] has returned the locations, at least one, the
    rest of [main] with the simulated failure always returns: it raises
    nothing and issues no request, and its code is 1 or 2, never 0. *)
Theorem simulated_main_total locations t :
  locations <> [] ->
  exists report code,
    main locations true t = (Ok (report, code), t)
    /\ (code = 1%Z \/ code = 2%Z).
Proof.
  intros Hne. rewrite main_unfold.
  destruct (snd (locations_to_searches (set_iter locations))) as [|e es] eqn:Eerr.
  - unfold perform_searches. rewrite for_each_simulated. cbn [app].
    do 2 eexists. split; [reflexivity|]. right.
    pose proof (no_errors_all_searches _ Eerr) as Hlen.
    destruct (fst (locations_to_searches (set_iter locations))) as [|s ss].
    + exfalso. apply (set_iter_nonempty locations Hne).
      now apply length_zero_iff_nil.
    + reflexivity.
  - do 2 eexists. split; [reflexivity|]. now left.
Qed.

Lemma main_raises_iff locations sim t e t' :
  main locations sim t = (Raise e, t')
  <-> snd (locations_to_searches (set_iter locations)) = []
      /\ perform_searches (fst (locations_to_searches (set_iter locations)))
           sim t = (Raise e, t').
Proof.
  rewrite main_unfold.
  destruct (snd (locations_to_searches (set_iter locations))) as [|err errs].
  - destruct (perform_searches _ sim t) as [[[succ fail]|ex] t1].
    + split; [discriminate | intros [_ H]; discriminate H].
    + split; [intros [= -> ->]; now split | intros [_ [= -> ->]]; reflexivity].
  - split; [discriminate | intros [H _]; discriminate H].
Qed.

(** X12: [main] catches nothing.  When the locations are valid and
    [requests.get] raises for one of the searches, after the searches before
    it have been answered, [main] raises that exception: there is no report
    and no outcome code, what the earlier searches gave is not shown, and
    the later searches are not requested. *)
Theorem transport_exception_reaches_main locations before search after t acc t1 e :
  locations_to_searches (set_iter locations)
  = ((before ++ search :: after)%list, []) ->
  perform_searches before false t = (Ok acc, t1) ->
  requests_get t1 (fst (request_for search)) (snd (request_for search))
  = Raise e ->
  main locations false t = (Raise e, (t1 ++ [request_for search])%list).
Proof.
  intros Hcls Hbefore Hget. apply main_raises_iff. rewrite Hcls. cbn [fst snd].
  split; [reflexivity|]. destruct acc as [succ fail].
  unfold perform_searches in *. rewrite for_each_app, Hbefore.
  cbn [for_each]. unfold bind.
  now rewrite perform_searches_body_real, Hget.
Qed.

(** X13: however [main] ends, the requests it has issued are those of the
    searches of the distinct locations, in their order and up to the point
    where it stopped: never more than one request per distinct location, and
    never a request that is not the one of a classified search. *)
Theorem main_requests_bounded locations sim t r t' :
  main locations sim t = (r, t') ->
  exists k,
    (k <= List.length (set_iter locations))%nat
    /\ (k <= List.length locations)%nat
    /\ t' = (t ++ map request_for
                    (firstn k (fst (locations_to_searches (set_iter locations)))))%list.
Proof.
  rewrite main_unfold. intros Hmain.
  pose proof (set_iter_length locations) as Hset.
  pose proof (searches_at_most_locations (set_iter locations)) as Hlen.
  destruct (snd (locations_to_searches (set_iter locations))) as [|err errs].
  - destruct (perform_searches _ sim t) as [r1 t1] eqn:Erun.
    unfold perform_searches in Erun.
    apply for_each_trace in Erun as (k & Hk & ->).
    exists k. repeat split; [lia | lia|].
    destruct r1 as [[succ fail]|ex]; congruence.
  - exists 0%nat. repeat split; [lia | lia|].
    cbn. rewrite app_nil_r. congruence.
Qed.

(** X14: the locations are deduplicated as raw strings, before they are
    classified: distinct locations that classify to the same search are
    each searched, so that the searches of [main] repeat that search once
    per location. *)
Theorem equivalent_locations_not_merged locations s :
  NoDup locations ->
  (forall l, In l locations -> locations_to_searches [l] = ([s], [])) ->
  locations_to_searches (set_iter locations)
  = (repeat s (List.length locations), []).
Proof.
  intros Hnd Hsame.
  rewrite <- (proj2 (set_iter_length_NoDup locations) Hnd).
  assert (Hall : forall l, In l (set_iter locations) ->
                           locations_to_searches [l] = ([s], [])).
  { intros l Hl. apply Hsame. now apply set_iter_In. }
  unfold locations_to_searches at 1. rewrite fold_body_acc. cbn [app].
  induction (set_iter locations) as [|l ls IH]; [reflexivity|].
  cbn [flat_map List.length repeat].
  rewrite (Hall l) by now left. cbn [fst snd app].
  assert (IH' := IH (fun l' Hl' => Hall l' (or_intror Hl'))).
  injection IH' as -> ->. reflexivity.
Qed.

End MainMore.

Section MainRuns.

Lemma outcome_code_meaning_witness :
  (2%Z = 1%Z
   /\ snd (locations_to_searches (@set_iter sample_runtime ["12345"; "akron,OH"]))
      <> []
   /\ map request_for [schenectady; mkSearch SearchType.NAME_STATE "akron,OH"]
      = [])
  \/ (snd (locations_to_searches (@set_iter sample_runtime ["12345"; "akron,OH"]))
      = []
      /\ exists succ fail,
           @perform_searches sample_runtime
             (fst (locations_to_searches
                     (@set_iter sample_runtime ["12345"; "akron,OH"])))
             false []
           = (Ok (succ, fail),
              map request_for
                [schenectady; mkSearch SearchType.NAME_STATE "akron,OH"])
           /\ (List.length succ + List.length fail)%nat
              = List.length (@set_iter sample_runtime ["12345"; "akron,OH"])
           /\ ((2%Z = 0%Z /\ fail = []) \/ (2%Z = 2%Z /\ fail <> []))).
Proof.
  exact (@outcome_code_meaning sample_runtime ["12345"; "akron,OH"] false []
           _ 2%Z _ eq_refl).
Defined.

Lemma transport_exception_reaches_main_witness :
  @main flaky_runtime ["12345"; "cleveland,OH"] false []
  = (Raise RequestException,
     ([request_for schenectady] ++ [request_for cleveland])%list).
Proof.
  exact (@transport_exception_reaches_main flaky_runtime
           ["12345"; "cleveland,OH"] [schenectady] cleveland [] []
           _ _ RequestException eq_refl eq_refl eq_refl).
Defined.

Lemma simulated_main_total_witness :
  exists report code,
    @main offline ["12345"; "cleveland, oh"] true [] = (Ok (report, code), [])
    /\ (code = 1%Z \/ code = 2%Z).
Proof.
  apply (@simulated_main_total offline ["12345"; "cleveland, oh"] []).
  discriminate.
Defined.

Lemma main_requests_bounded_witness :
  exists k,
    (k <= List.length (@set_iter offline ["12345"; "cleveland,OH"]))%nat
    /\ (k <= List.length ["12345"; "cleveland,OH"])%nat
    /\ [request_for schenectady]
       = ([] ++ map request_for
                  (firstn k (fst (locations_to_searches
                                    (@set_iter offline
                                       ["12345"; "cleveland,OH"])))))%list.
Proof.
  exact (@main_requests_bounded offline ["12345"; "cleveland,OH"] false []
           (Raise RequestException) _ eq_refl).
Defined.

Lemma equivalent_locations_not_merged_witness :
  locations_to_searches (@set_iter offline ["cleveland,OH"; "cleveland, oh"])
  = (repeat cleveland (List.length ["cleveland,OH"; "cleveland, oh"]), []).
Proof.
  apply (@equivalent_locations_not_merged offline
           ["cleveland,OH"; "cleveland, oh"] cleveland).
  - constructor; [|constructor; [|constructor]].
    + intros [H|[]]. discriminate H.
    + intros [].
  - intros l [<-|[<-|[]]]; reflexivity.
Defined.

End MainRuns.

(** ** The description of a search and whole runs *)

Section Descriptions.

(** X15: the description [Search.__repr__] gives, which is what the report
    shows of a search, tells the searches of the two types apart: two such
    searches with the same description are the same search. *)
Theorem Search_repr_injective s1 s2 :
  search_type s1 = SearchType.NAME_STATE \/ search_type s1 = SearchType.ZIP_CODE ->
  search_type s2 = SearchType.NAME_STATE \/ search_type s2 = SearchType.ZIP_CODE ->
  Search_repr s1 = Search_repr s2 ->
  s1 = s2.
Proof.
  destruct s1 as [ty1 v1], s2 as [ty2 v2]. unfold Search_repr. cbn [search_type value].
  intros [->| ->] [->| ->] Hrepr; cbn in Hrepr;
    try discriminate Hrepr; now injection Hrepr as ->.
Qed.

Lemma Search_repr_injective_witness :
  mkSearch "Zip code" "12345" = schenectady.
Proof.
  apply (Search_repr_injective (mkSearch "Zip code" "12345") schenectady);
    [now right | now right | reflexivity].
Defined.

Context `{RT : Runtime}.

(** X16: the four error cases of the integration tests hold whatever the
    runtime and the failure simulation, and issue no request: a zip code of
    three digits, a missing city, a missing state and an unknown state each
    give the message the test expects, with outcome code 1. *)
Theorem error_tests_pass sim t :
  main ["123"] sim t
  = (Ok ("Location 123 does not contain one-and-only-one comma", 1%Z), t)
  /\ main [",OH"] sim t
     = (Ok ("Location ,OH's city is an empty string", 1%Z), t)
  /\ main ["cleveland,"] sim t
     = (Ok ("Location cleveland,'s state  not a valid US state", 1%Z), t)
  /\ main ["cleveland,ZZ"] sim t
     = (Ok ("Location cleveland,ZZ's state ZZ not a valid US state", 1%Z), t).
Proof.
  assert (Hone : forall l, set_iter [l] = [l]).
  { intros l. apply set_iter_constant; [now left|]. intros y [<-|[]]; reflexivity. }
  repeat split; rewrite main_unfold; unfold removed_lines; rewrite Hone;
    reflexivity.
Qed.

(** X17: one location that starts with five digits, answered 200 with a
    JSON object: [main] issues the one request of the zip-code search and
    returns code 0 with a report of three lines, the count, the search and
    the object without its ["local_names"] entry. *)
Theorem single_zip_lookup location t body record :
  Py.match_digits 5 location = true ->
  requests_get t (fst (request_for (mkSearch SearchType.ZIP_CODE location)))
    (snd (request_for (mkSearch SearchType.ZIP_CODE location)))
  = Ok (200%Z, body) ->
  json_loads body = Ok (PyDict record) ->
  main [location] false t
  = (Ok (Py.strip
           (Py.join Py.newline
              ["1 successful search(es):";
               "Search: Zip code " ++ location ++ Py.newline ++ "Result: "
                 ++ py_format (PyDict (remove_key "local_names" record))]),
         0%Z),
     (t ++ [request_for (mkSearch SearchType.ZIP_CODE location)])%list).
Proof.
  intros Hzip Hget Hjson.
  assert (Hset : set_iter [location] = [location]).
  { apply set_iter_constant; [now left|]. intros y [<-|[]]; reflexivity. }
  assert (Hcls : locations_to_searches [location]
                 = ([mkSearch SearchType.ZIP_CODE location], [])).
  { unfold locations_to_searches, locations_to_searches_body. cbn [fold_left].
    now rewrite Hzip. }
  rewrite main_unfold. unfold removed_lines. rewrite Hset, Hcls. cbn [fst snd].
  unfold perform_searches. cbn [for_each]. unfold bind, ret.
  rewrite perform_searches_body_real, Hget. cbv zeta. rewrite Hjson.
  cbn [search_type String.eqb Ascii.eqb Bool.eqb SearchType.ZIP_CODE
         SearchType.NAME_STATE py_contains py_delitem].
  change (String.eqb SearchType.ZIP_CODE SearchType.NAME_STATE) with false.
  cbv iota.
  destruct (has_key "local_names" record) eqn:E;
    [|rewrite (remove_key_absent _ _ E)]; reflexivity.
Qed.

End Descriptions.

Section DescriptionRuns.

Lemma single_zip_lookup_witness :
  @main sample_runtime ["12345"] false []
  = (Ok (Py.strip
           (Py.join Py.newline
              ["1 successful search(es):";
               "Search: Zip code 12345" ++ Py.newline
                 ++ "Result: {zip, name, country}"]),
         0%Z),
     [request_for schenectady]).
Proof.
  exact (@single_zip_lookup sample_runtime "12345" [] "zip 12345" _
           eq_refl eq_refl eq_refl).
Defined.

End DescriptionRuns.
